(** * ChocoCrunch Analytics: the load-and-query pipeline of [app.py]

    The dashboard reads a cleaned CSV into a pandas dataframe
    ([load_data]), copies three column selections of it into an in-memory
    SQLite database ([create_sqlite_db]) and then runs a fixed catalogue of
    SQL queries through [execute_query].  This development embeds those
    functions and the two "top 5 by sugar-to-carb ratio" queries, and
    states the properties of the derived-metrics table.

    Conventions of the embedding:
    - a dataframe (and an SQL table) is a header of column names plus a
      list of rows; a cell is missing ([CNull], pandas NaN / SQL NULL), an
      integer ([CInt], a cell of an integer column), a float or a text.
      Floats are exact rationals ([Qc]); the program never does arithmetic
      on numbers, it only copies, stores and compares them;
    - Python exceptions are the [Raise] branch of [Result];
    - Streamlit output ([st.markdown], [st.error]) is a log of
      [UiEvent]s. *)

From Stdlib Require Import QArith Qcanon Sorted Ascii.
From stdpp Require Import numbers base strings list gmap.

Set Default Proof Using "Type".
Local Open Scope string_scope.
Local Open Scope list_scope.
Local Open Scope nat_scope.

(** ** Cells, dataframes, exceptions *)

Inductive Cell :=
| CNull
| CInt (n : Z)
| CNum (q : Qc)
| CStr (s : string).

#[global] Instance Cell_eq_dec : EqDecision Cell.
Proof. solve_decision. Defined.

Record DataFrame := mkDF {
  columns : list string;
  data : list (list Cell)
}.

#[global] Instance DataFrame_eq_dec : EqDecision DataFrame.
Proof. solve_decision. Defined.

(** [pd.DataFrame()]: no columns, no rows. *)
Definition empty_frame : DataFrame := mkDF [] [].

Inductive Exn :=
| KeyError (name : string)
| DatabaseError (msg : string)
| OSError (msg : string)
| OverflowError (msg : string)
| OperationalError (msg : string).

#[global] Instance Exn_eq_dec : EqDecision Exn.
Proof. solve_decision. Defined.

(** [str(e)] *)
Definition exn_str (e : Exn) : string :=
  match e with
  | KeyError name => name
  | DatabaseError msg => msg
  | OSError msg => msg
  | OverflowError msg => msg
  | OperationalError msg => msg
  end.

Inductive Result (A : Type) :=
| Ok (a : A)
| Raise (e : Exn).
Arguments Ok {A} a.
Arguments Raise {A} e.

Definition rbind {A B} (m : Result A) (k : A → Result B) : Result B :=
  match m with
  | Ok a => k a
  | Raise e => Raise e
  end.

Notation "'let!' x := m 'in' k" := (rbind m (fun x => k))
  (at level 10, x name, m at level 100, k at level 200).

Fixpoint rmapM {A B} (f : A → Result B) (l : list A) : Result (list B) :=
  match l with
  | [] => Ok []
  | a :: l' =>
      let! b := f a in
      let! bs := rmapM f l' in
      Ok (b :: bs)
  end.

(** ** Column access *)

(** Position of the first occurrence of [c]: the column a name denotes. *)
Fixpoint index_of `{EqDecision A} (c : A) (cols : list A) : option nat :=
  match cols with
  | [] => None
  | c' :: cols' => if decide (c = c') then Some 0 else S <$> index_of c cols'
  end.

(** The cell of a row at a position; a row shorter than the header reads
    as missing there, which is how [read_csv] pads a short line. *)
Definition row_get (r : list Cell) (j : nat) : Cell := default CNull (r !! j).

Definition resolve (df : DataFrame) (c : string) : Result nat :=
  match index_of c (columns df) with
  | Some j => Ok j
  | None => Raise (KeyError c)
  end.

(** [df[cols]]: the selection of the listed columns, in the listed order;
    [KeyError] when one of them is not in the frame. *)
Definition getitem (df : DataFrame) (cols : list string) : Result DataFrame :=
  let! idxs := rmapM (resolve df) cols in
  Ok (mkDF cols (map (fun r => map (row_get r) idxs) (data df))).

(** The values of column [c], top to bottom (nothing when the frame has no
    such column), and the cell of row [i] in that column. *)
Definition column_values (df : DataFrame) (c : string) : list Cell :=
  match index_of c (columns df) with
  | Some j => map (fun r => row_get r j) (data df)
  | None => []
  end.

Definition cell_at (df : DataFrame) (i : nat) (c : string) : option Cell :=
  column_values df c !! i.

(** [df.drop_duplicates(subset)], with pandas' default [keep='first']: a
    row is dropped when an earlier row has the same key (two missing keys
    count as the same key). *)
Fixpoint drop_dup_rows (key : list Cell → Cell) (seen : list Cell)
    (rows : list (list Cell)) : list (list Cell) :=
  match rows with
  | [] => []
  | r :: rows' =>
      if decide (key r ∈ seen) then drop_dup_rows key seen rows'
      else r :: drop_dup_rows key (key r :: seen) rows'
  end.

Definition drop_duplicates (subset : string) (df : DataFrame) : Result DataFrame :=
  let! k := resolve df subset in
  Ok (mkDF (columns df) (drop_dup_rows (fun r => row_get r k) [] (data df))).

(** ** The in-memory database *)

(** A connection is the set of its tables, by name. *)
Abbreviation Conn := (gmap string DataFrame).

(** [sqlite3.connect(':memory:')] *)
Definition connect_memory : Conn := ∅.

(** SQLite keeps an integer in 64 bits; the [sqlite3] module refuses to
    bind a Python integer outside that range. *)
Definition int64_fits (n : Z) : bool :=
  ((- 2 ^ 63 <=? n) && (n <? 2 ^ 63))%Z.

Definition cell_fits (c : Cell) : bool :=
  match c with
  | CInt n => int64_fits n
  | _ => true
  end.

Definition frame_fits (df : DataFrame) : bool :=
  forallb (forallb cell_fits) (data df).

(** No integer of column [c] is outside that range. *)
Definition column_fits (df : DataFrame) (c : string) : Prop :=
  Forall (fun x => cell_fits x = true) (column_values df c).

#[global] Instance column_fits_dec df c : Decision (column_fits df c).
Proof. unfold column_fits. apply _. Defined.

(** SQLite compares column names without regard to the case of ASCII
    letters. *)
Definition ascii_lower (a : ascii) : ascii :=
  let n := nat_of_ascii a in
  if (65 <=? n) && (n <=? 90) then ascii_of_nat (n + 32) else a.

Fixpoint name_lower (s : string) : string :=
  match s with
  | EmptyString => EmptyString
  | String a s' => String (ascii_lower a) (name_lower s')
  end.

(** The first column name that repeats an earlier one, if any. *)
Fixpoint repeated_name (seen cols : list string) : option string :=
  match cols with
  | [] => None
  | c :: cols' =>
      if decide (name_lower c ∈ seen) then Some c
      else repeated_name (name_lower c :: seen) cols'
  end.

Definition overflow_msg : string :=
  "Python int too large to convert to SQLite INTEGER".

(** [df.to_sql(name, conn, if_exists='replace', index=False)]: the table
    [name] is created anew, which SQLite refuses when two columns have the
    same name, and the rows are inserted, which fails on an integer that
    does not fit; otherwise the table [name] becomes exactly the frame,
    whatever was stored under that name. *)
Definition to_sql (df : DataFrame) (name : string) (conn : Conn) : Result Conn :=
  match repeated_name [] (columns df) with
  | Some c => Raise (OperationalError ("duplicate column name: " +:+ c))
  | None =>
      if frame_fits df then Ok (<[name := df]> conn)
      else Raise (OverflowError overflow_msg)
  end.

Definition product_cols : list string :=
  ["product_code"; "product_name"; "brand"].

Definition nutrient_cols : list string :=
  ["product_code"; "energy-kcal_value"; "energy-kj_value";
   "carbohydrates_value"; "sugars_value"; "fat_value";
   "saturated-fat_value"; "proteins_value"; "fiber_value";
   "salt_value"; "sodium_value"; "nutrition-score-fr"; "nova-group";
   "fruits-vegetables-nuts-estimate-from-ingredients_100g"].

Definition derived_cols : list string :=
  ["product_code"; "sugar_to_carb_ratio"; "calorie_category";
   "sugar_category"; "is_ultra_processed"].

(** The body of [create_sqlite_db] after the connection is opened. *)
Definition build_tables (df : DataFrame) (conn : Conn) : Result Conn :=
  let! selected := getitem df product_cols in
  let! product_info := drop_duplicates "product_code" selected in
  let! conn := to_sql product_info "product_info" conn in
  let! nutrient_info := getitem df nutrient_cols in
  let! conn := to_sql nutrient_info "nutrient_info" conn in
  let! derived_metrics := getitem df derived_cols in
  let! conn := to_sql derived_metrics "derived_metrics" conn in
  Ok conn.

Definition create_sqlite_db (df : DataFrame) : Result Conn :=
  build_tables df connect_memory.

(** ** Streamlit output, loading and caching *)

Inductive UiEvent :=
| StMarkdown (body : string) (unsafe_allow_html : bool)
| StError (msg : string).

(** A computation that writes to the page and may raise. *)
Definition UI (A : Type) : Type := Result A * list UiEvent.

Definition ui_ret {A} (a : A) : UI A := (Ok a, []).

Definition ui_lift {A} (r : Result A) : UI A := (r, []).

Definition ui_bind {A B} (m : UI A) (k : A → UI B) : UI B :=
  match m with
  | (Ok a, out) => let '(r, out') := k a in (r, out ++ out')
  | (Raise e, out) => (Raise e, out)
  end.

Notation "'do!' x := m 'in' k" := (ui_bind m (fun x => k))
  (at level 10, x name, m at level 100, k at level 200).

Definition st_error (msg : string) : UI unit := (Ok tt, [StError msg]).

(** [try: body / except Exception as e: handler(e)] *)
Definition try_except {A} (body : UI A) (handler : Exn → UI A) : UI A :=
  match body with
  | (Ok a, out) => (Ok a, out)
  | (Raise e, out) => let '(r, out') := handler e in (r, out ++ out')
  end.

(** [load_data]; [csv] is what [pd.read_csv] does on the dataset file. *)
Definition load_data (csv : Result DataFrame) : UI (option DataFrame) :=
  try_except
    (do! df := ui_lift csv in ui_ret (Some df))
    (fun _ =>
       do! _ := st_error "❌ Could not load dataset. Ensure 'ChocoCrunch_Cleaned_Dataset.csv' is in the same directory." in
       ui_ret None).

(** [@st.cache_resource]: results are kept by argument; a call that raises
    stores nothing.  Streamlit finds an argument by a hash of it; here an
    entry answers for the frame it was stored for. *)
Abbreviation Cache := (list (DataFrame * Conn)).

Fixpoint cache_lookup (df : DataFrame) (cache : Cache) : option Conn :=
  match cache with
  | [] => None
  | (k, v) :: cache' => if decide (df = k) then Some v else cache_lookup df cache'
  end.

Definition cached_create_sqlite_db (df : DataFrame) (cache : Cache)
    : Result Conn * Cache :=
  match cache_lookup df cache with
  | Some conn => (Ok conn, cache)
  | None =>
      match create_sqlite_db df with
      | Ok conn => (Ok conn, (df, conn) :: cache)
      | Raise e => (Raise e, cache)
      end
  end.

(** The first lines of [main]: load, stop when loading failed, derive. *)
Definition load_and_derive (csv : Result DataFrame) (cache : Cache)
    : UI (option Conn) * Cache :=
  match load_data csv with
  | (Ok (Some df), out) =>
      let '(r, cache') := cached_create_sqlite_db df cache in
      (match r with Ok conn => (Ok (Some conn), out) | Raise e => (Raise e, out) end,
       cache')
  | (Ok None, out) => ((Ok None, out), cache)
  | (Raise e, out) => ((Raise e, out), cache)
  end.

(** ** The query layer *)

Section QueryLayer.
(** [pd.read_sql_query]: the SQL engine, whatever it answers. *)
Variable read_sql_query : string → Conn → Result DataFrame.

Definition execute_query (conn : Conn) (query : string) : UI DataFrame :=
  try_except
    (do! result := ui_lift (read_sql_query query conn) in ui_ret result)
    (fun e =>
       do! _ := st_error ("❌ Query Error: " +:+ exn_str e) in
       ui_ret empty_frame).

(** A page of the first front end (Query 21 to Query 27): the query and
    the rendering of its result sit in one [try], and any exception of
    either ends up in [st.error]. *)
Definition query_page (conn : Conn) (query : string)
    (render : DataFrame → UI unit) : UI unit :=
  try_except
    (do! q := ui_lift (read_sql_query query conn) in render q)
    (fun e => st_error ("Error executing query: " +:+ exn_str e)).
End QueryLayer.

(** ** The SQL of the two ratio rankings

    The operators below are the fragment of SQLite the two "top 5 by
    sugar-to-carb ratio" queries use: aliased tables, inner joins on an
    equality, [IS NOT NULL], [ORDER BY ... DESC], [LIMIT] and a select
    list.  A name that does not resolve is the engine's error. *)

(** [FROM name alias]: the columns are known as [alias.column]. *)
Definition sql_table (conn : Conn) (name alias : string) : Result DataFrame :=
  match conn !! name with
  | Some t =>
      Ok (mkDF (map (fun c => alias +:+ "." +:+ c) (columns t))
               (map (fun r => map (row_get r) (seq 0 (length (columns t)))) (data t)))
  | None => Raise (DatabaseError ("no such table: " +:+ name))
  end.

Definition sql_column (t : DataFrame) (c : string) : Result nat :=
  match index_of c (columns t) with
  | Some j => Ok j
  | None => Raise (DatabaseError ("no such column: " +:+ c))
  end.

(** [a = b] in a join condition: never true when a side is NULL.  The
    two sides are cells of columns stored from one dataframe column, or a
    cell and a literal: values of one storage class, equal when they are
    the same value. *)
Definition sql_eqb (a b : Cell) : bool :=
  match a, b with
  | CNull, _ | _, CNull => false
  | _, _ => bool_decide (a = b)
  end.

(** [l JOIN r ON cl = cr] *)
Definition sql_join (l r : DataFrame) (cl cr : string) : Result DataFrame :=
  let cols := columns l ++ columns r in
  let rows := a ← data l; b ← data r; [a ++ b] in
  let! i := sql_column (mkDF cols rows) cl in
  let! j := sql_column (mkDF cols rows) cr in
  Ok (mkDF cols (filter (fun row => sql_eqb (row_get row i) (row_get row j)) rows)).

(** [WHERE c IS NOT NULL] *)
Definition sql_where_not_null (t : DataFrame) (c : string) : Result DataFrame :=
  let! j := sql_column t c in
  Ok (mkDF (columns t) (filter (fun row => row_get row j ≠ CNull) (data t))).

(** SQLite's sort order of values: NULL below every number, numbers below
    every text, numbers by value (an integer and a float too), texts byte
    by byte. *)
Definition cell_leb (a b : Cell) : bool :=
  match a, b with
  | CNull, _ => true
  | (CInt _ | CNum _), CNull => false
  | CInt x, CInt y => bool_decide (x ≤ y)%Z
  | CInt x, CNum y => bool_decide (Qc_of_Z x ≤ y)%Qc
  | CNum x, CInt y => bool_decide (x ≤ Qc_of_Z y)%Qc
  | CNum x, CNum y => bool_decide (x ≤ y)%Qc
  | (CInt _ | CNum _), CStr _ => true
  | CStr _, (CNull | CInt _ | CNum _) => false
  | CStr s, CStr t => String.leb s t
  end.

(** [ORDER BY c DESC]: larger keys first, so NULL keys come last; rows
    with equal keys stay in the order they had (SQLite leaves that order
    open). *)
Fixpoint insert_desc (key : list Cell → Cell) (r : list Cell)
    (sorted : list (list Cell)) : list (list Cell) :=
  match sorted with
  | [] => [r]
  | r' :: sorted' =>
      if cell_leb (key r') (key r) then r :: r' :: sorted'
      else r' :: insert_desc key r sorted'
  end.

Definition sort_desc (key : list Cell → Cell) (rows : list (list Cell))
    : list (list Cell) :=
  foldr (insert_desc key) [] rows.

Definition sql_order_by_desc (t : DataFrame) (c : string) : Result DataFrame :=
  let! j := sql_column t c in
  Ok (mkDF (columns t) (sort_desc (fun row => row_get row j) (data t))).

(** [LIMIT n] *)
Definition sql_limit (n : nat) (t : DataFrame) : DataFrame :=
  mkDF (columns t) (take n (data t)).

(** Select-list expressions. *)
Inductive Expr :=
| ECol (c : string)
| ERound (e : Expr) (digits : nat)
| ETimes (e : Expr) (k : Z).

Section Select.
(** SQLite's [ROUND(x, digits)] and [x * k]; the rankings do not depend
    on what they compute. *)
Variable sql_round : Cell → nat → Cell.
Variable sql_times : Cell → Z → Cell.

Fixpoint compile_expr (t : DataFrame) (e : Expr) : Result (list Cell → Cell) :=
  match e with
  | ECol c =>
      let! j := sql_column t c in
      Ok (fun row => row_get row j)
  | ERound e' digits =>
      let! f := compile_expr t e' in
      Ok (fun row => sql_round (f row) digits)
  | ETimes e' k =>
      let! f := compile_expr t e' in
      Ok (fun row => sql_times (f row) k)
  end.

(** [SELECT e1 AS n1, e2 AS n2, ...] *)
Definition sql_select (t : DataFrame) (items : list (Expr * string))
    : Result DataFrame :=
  let! fs := rmapM (fun item => compile_expr t item.1) items in
  Ok (mkDF (map snd items) (map (fun row => map (fun f => f row) fs) (data t))).

(** Query 27 of the first front end, up to its select list: the joined
    rows that are kept, ranked and cut. *)
Definition q27_rows (conn : Conn) : Result DataFrame :=
  let! d := sql_table conn "derived_metrics" "d" in
  let! p := sql_table conn "product_info" "p" in
  let! n := sql_table conn "nutrient_info" "n" in
  let! dp := sql_join d p "d.product_code" "p.product_code" in
  let! dpn := sql_join dp n "d.product_code" "n.product_code" in
  let! kept := sql_where_not_null dpn "d.sugar_to_carb_ratio" in
  let! ranked := sql_order_by_desc kept "d.sugar_to_carb_ratio" in
  Ok (sql_limit 5 ranked).

Definition q27_items : list (Expr * string) :=
  [(ECol "p.product_name", "product_name");
   (ECol "p.brand", "brand");
   (ERound (ECol "d.sugar_to_carb_ratio") 3, "sugar_to_carb_ratio");
   (ERound (ETimes (ECol "d.sugar_to_carb_ratio") 100) 1, "percentage_sugar");
   (ECol "n.sugars", "sugars");
   (ECol "n.carbohydrates", "carbohydrates");
   (ECol "d.calorie_category", "calorie_category")].

Definition q27 (conn : Conn) : Result DataFrame :=
  let! rows := q27_rows conn in
  sql_select rows q27_items.

(** "Top 5 by Ratio" of the second front end (Join Queries, tab 7). *)
Definition join_query7_rows (conn : Conn) : Result DataFrame :=
  let! pi := sql_table conn "product_info" "pi" in
  let! dm := sql_table conn "derived_metrics" "dm" in
  let! joined := sql_join pi dm "pi.product_code" "dm.product_code" in
  let! ranked := sql_order_by_desc joined "dm.sugar_to_carb_ratio" in
  Ok (sql_limit 5 ranked).

Definition join_query7_items : list (Expr * string) :=
  [(ECol "pi.product_name", "product_name");
   (ECol "pi.brand", "brand");
   (ECol "dm.sugar_to_carb_ratio", "sugar_to_carb_ratio");
   (ECol "dm.calorie_category", "calorie_category");
   (ECol "dm.sugar_category", "sugar_category")].

Definition join_query7 (conn : Conn) : Result DataFrame :=
  let! rows := join_query7_rows conn in
  sql_select rows join_query7_items.
End Select.

(** ** Reading the database back *)

(** The cell of row [i], column [c] of a stored table. *)
Definition stored (conn : Conn) (table : string) (i : nat) (c : string)
    : option Cell :=
  t ← conn !! table; cell_at t i c.

(** ** The derivation rules, as the specification words them

    The program has no code for these rules; they are written here from
    the specification, to be compared with what the program stores. *)

Module Rules.
Local Open Scope Qc_scope.

(** The number a cell holds, whether its column is an integer or a float
    column. *)
Definition number (c : Cell) : option Qc :=
  match c with
  | CInt n => Some (Qc_of_Z n)
  | CNum x => Some x
  | _ => None
  end.

(** Below 300 low, from 300 and below 500 moderate, from 500 high;
    anything that is not a number is unknown. *)
Definition calorie_category_of (energy_kcal : Cell) : Cell :=
  match number energy_kcal with
  | Some x =>
      if decide (x < Qc_of_Z 300) then CStr "Low Calorie"
      else if decide (x < Qc_of_Z 500) then CStr "Moderate Calorie"
      else CStr "High Calorie"
  | None => CStr "Unknown"
  end.

(** Below 5 low, from 5 and below 22.5 moderate, from 22.5 high. *)
Definition sugar_category_of (sugars : Cell) : Cell :=
  match number sugars with
  | Some x =>
      if decide (x < Qc_of_Z 5) then CStr "Low Sugar"
      else if decide (x < Q2Qc (45 # 2)) then CStr "Moderate Sugar"
      else CStr "High Sugar"
  | None => CStr "Unknown"
  end.

(** Yes for NOVA group 4, No for any other value and for a missing one. *)
Definition is_ultra_processed_of (nova_group : Cell) : Cell :=
  if decide (number nova_group = Some (Qc_of_Z 4)) then CStr "Yes" else CStr "No".

(** What the ratio has to be: sugars over carbohydrates when
    carbohydrates is a number above 0, missing when carbohydrates is
    missing or not above 0.  With carbohydrates above 0 and sugars
    missing the specification leaves the ratio open. *)
Definition ratio_rule (sugars carbohydrates ratio : Cell) : Prop :=
  match number carbohydrates with
  | Some c =>
      if decide (0 < c) then
        match number sugars with
        | Some s => ratio = CNum (s / c)
        | None => True
        end
      else ratio = CNull
  | None => ratio = CNull
  end.

(** A derived column follows a one-argument rule [f] of a raw column. *)
Definition step_holds (f : Cell → Cell) (raw derived : nat → option Cell) : Prop :=
  ∀ i x y, raw i = Some x → derived i = Some y → y = f x.

Definition ratio_holds (sugars carbohydrates ratio : nat → option Cell) : Prop :=
  ∀ i s c r,
    sugars i = Some s → carbohydrates i = Some c → ratio i = Some r →
    ratio_rule s c r.

(** The rules on the rows of an input frame ... *)
Definition frame_ratio_rule (df : DataFrame) : Prop :=
  ratio_holds (fun i => cell_at df i "sugars_value")
              (fun i => cell_at df i "carbohydrates_value")
              (fun i => cell_at df i "sugar_to_carb_ratio").

Definition frame_calorie_rule (df : DataFrame) : Prop :=
  step_holds calorie_category_of
             (fun i => cell_at df i "energy-kcal_value")
             (fun i => cell_at df i "calorie_category").

Definition frame_sugar_rule (df : DataFrame) : Prop :=
  step_holds sugar_category_of
             (fun i => cell_at df i "sugars_value")
             (fun i => cell_at df i "sugar_category").

Definition frame_ultra_rule (df : DataFrame) : Prop :=
  step_holds is_ultra_processed_of
             (fun i => cell_at df i "nova-group")
             (fun i => cell_at df i "is_ultra_processed").

(** ... and on the records of the database: row [i] of [nutrient_info]
    against row [i] of [derived_metrics]. *)
Definition db_ratio_rule (conn : Conn) : Prop :=
  ratio_holds (fun i => stored conn "nutrient_info" i "sugars_value")
              (fun i => stored conn "nutrient_info" i "carbohydrates_value")
              (fun i => stored conn "derived_metrics" i "sugar_to_carb_ratio").

Definition db_calorie_rule (conn : Conn) : Prop :=
  step_holds calorie_category_of
             (fun i => stored conn "nutrient_info" i "energy-kcal_value")
             (fun i => stored conn "derived_metrics" i "calorie_category").

Definition db_sugar_rule (conn : Conn) : Prop :=
  step_holds sugar_category_of
             (fun i => stored conn "nutrient_info" i "sugars_value")
             (fun i => stored conn "derived_metrics" i "sugar_category").

Definition db_ultra_rule (conn : Conn) : Prop :=
  step_holds is_ultra_processed_of
             (fun i => stored conn "nutrient_info" i "nova-group")
             (fun i => stored conn "derived_metrics" i "is_ultra_processed").
End Rules.

(** ** Sample datasets *)

Module Samples.
(** The header of the cleaned dataset: the columns the three tables are
    cut from. *)
Definition dataset_columns : list string :=
  ["product_code"; "product_name"; "brand";
   "energy-kcal_value"; "energy-kj_value"; "carbohydrates_value";
   "sugars_value"; "fat_value"; "saturated-fat_value"; "proteins_value";
   "fiber_value"; "salt_value"; "sodium_value"; "nutrition-score-fr";
   "nova-group"; "fruits-vegetables-nuts-estimate-from-ingredients_100g";
   "sugar_to_carb_ratio"; "calorie_category"; "sugar_category";
   "is_ultra_processed"].

(** A line of the dataset; the nutrients no rule reads are left missing. *)
Definition product_row (code name brand energy carbohydrates sugars nova
    ratio calorie sugar ultra : Cell) : list Cell :=
  [code; name; brand;
   energy; CNull; carbohydrates;
   sugars; CNull; CNull; CNull;
   CNull; CNull; CNull; CNull;
   nova; CNull;
   ratio; calorie; sugar; ultra].

Definition num (z : Z) : Cell := CNum (Qc_of_Z z).
Definition frac (n : Z) (d : positive) : Cell := CNum (Q2Qc (n # d)).

(** Rows whose derived columns follow the rules (the specification's
    scenarios 1, 2 and 4), and one with every nutrient missing. *)
Definition labelled : DataFrame :=
  mkDF dataset_columns
    [product_row (CStr "P1") (CStr "Noir 85") (CStr "Cacao Co")
       (num 520) (num 50) (num 30) (num 4)
       (frac 3 5) (CStr "High Calorie") (CStr "High Sugar") (CStr "Yes");
     product_row (CStr "P2") (CStr "Nibs") (CStr "Cacao Co")
       (num 250) (num 40) (num 2) (num 2)
       (frac 1 20) (CStr "Low Calorie") (CStr "Low Sugar") (CStr "No");
     product_row (CStr "P3") (CStr "Lait") CNull
       (num 300) (num 20) (num 5) CNull
       (frac 1 4) (CStr "Moderate Calorie") (CStr "Moderate Sugar") (CStr "No");
     product_row (CStr "P4") CNull CNull
       CNull CNull CNull CNull
       CNull (CStr "Unknown") (CStr "Unknown") (CStr "No")].

(** A well-formed dataset whose derived columns do not follow the rules:
    energy 300 labelled low, sugars 5 labelled low, a ratio of 0.9 for
    5 g of sugars in 20 g of carbohydrates, NOVA group 1 flagged. *)
Definition mislabelled : DataFrame :=
  mkDF dataset_columns
    [product_row (CStr "P1") (CStr "Lait") (CStr "Cacao Co")
       (num 300) (num 20) (num 5) (num 1)
       (frac 9 10) (CStr "Low Calorie") (CStr "Low Sugar") (CStr "Yes")].

(** The same product code on two lines. *)
Definition duplicated : DataFrame :=
  mkDF dataset_columns
    [product_row (CStr "P1") (CStr "First") (CStr "Cacao Co")
       (num 520) (num 50) (num 30) (num 4)
       (frac 3 5) (CStr "High Calorie") (CStr "High Sugar") (CStr "Yes");
     product_row (CStr "P1") (CStr "Last") (CStr "Cacao Co")
       (num 250) (num 40) (num 2) (num 2)
       (frac 1 20) (CStr "Low Calorie") (CStr "Low Sugar") (CStr "No")].

(** One product without carbohydrates, so without a ratio. *)
Definition no_ratio : DataFrame :=
  mkDF dataset_columns
    [product_row (CStr "P1") (CStr "Sugar free") (CStr "Cacao Co")
       CNull (num 0) CNull CNull
       CNull (CStr "Unknown") (CStr "Unknown") (CStr "No")].

(** One product of which only the code is known. *)
Definition all_missing : DataFrame :=
  mkDF dataset_columns
    [product_row (CStr "P1") CNull CNull
       CNull CNull CNull CNull
       CNull CNull CNull CNull].

(** Products of which only the barcode is known; the second barcode is
    the largest integer SQLite stores. *)
Definition barcodes_only : DataFrame :=
  mkDF dataset_columns
    [product_row (CInt 3017620422003) CNull CNull
       CNull CNull CNull CNull
       CNull CNull CNull CNull;
     product_row (CInt 9223372036854775807) CNull CNull
       CNull CNull CNull CNull
       CNull CNull CNull CNull].

(** A product whose code is the number 9223372036854775808, one more
    than that. *)
Definition long_code : DataFrame :=
  mkDF dataset_columns
    [product_row (CInt 9223372036854775808) (CStr "Noir 85") (CStr "Cacao Co")
       (num 520) (num 50) (num 30) (num 4)
       (frac 3 5) (CStr "High Calorie") (CStr "High Sugar") (CStr "Yes")].

(** The same product in a file that has the product columns only. *)
Definition long_code_only : DataFrame :=
  mkDF product_cols
    [[CInt 9223372036854775808; CStr "Noir 85"; CStr "Cacao Co"]].

(** A file without the NOVA group. *)
Definition no_nova : DataFrame :=
  mkDF (filter (fun c => c ≠ "nova-group") dataset_columns)
    [[CInt 3017620422003; CStr "Noir 85"; CStr "Cacao Co";
      num 520; CNull; num 50; num 30; CNull; CNull; CNull;
      CNull; CNull; CNull; CNull; CNull;
      frac 3 5; CStr "High Calorie"; CStr "High Sugar"; CStr "No"]].

(** A database file as the first front end reads it, with the column
    names its queries use, holding that same product. *)
Definition prebuilt_no_ratio : Conn :=
  <["derived_metrics" :=
      mkDF derived_cols
        [[CStr "P1"; CNull; CStr "Unknown"; CStr "Unknown"; CStr "No"]]]>
  (<["nutrient_info" :=
      mkDF ["product_code"; "energy_kcal"; "sugars"; "carbohydrates"; "fat";
            "fruits_vegetables_nuts"]
        [[CStr "P1"; CNull; CNull; num 0; CNull; CNull]]]>
  (<["product_info" :=
      mkDF product_cols [[CStr "P1"; CStr "Sugar free"; CStr "Cacao Co"]]]> ∅)).

(** A two-column table with a number, a text and a missing value to rank,
    and the same rows ranked on the second column. *)
Definition unranked : DataFrame :=
  mkDF ["code"; "ratio"]
    [[CStr "B"; num 3]; [CStr "A"; CStr "n/a"]; [CStr "E"; CNull];
     [CStr "C"; num 1]; [CStr "D"; CNull]].

Definition ranked : DataFrame :=
  mkDF ["code"; "ratio"]
    [[CStr "A"; CStr "n/a"]; [CStr "B"; num 3]; [CStr "C"; num 1];
     [CStr "E"; CNull]; [CStr "D"; CNull]].


(** A database file of the first front end with three products, one of
    them without a ratio. *)
Definition prebuilt : Conn :=
  <["derived_metrics" :=
      mkDF derived_cols
        [[CStr "P1"; frac 1 4; CStr "Moderate Calorie"; CStr "Moderate Sugar"; CStr "No"];
         [CStr "P2"; CNull; CStr "Unknown"; CStr "Unknown"; CStr "No"];
         [CStr "P3"; frac 3 5; CStr "High Calorie"; CStr "High Sugar"; CStr "Yes"]]]>
  (<["nutrient_info" :=
      mkDF ["product_code"; "energy_kcal"; "sugars"; "carbohydrates"; "fat";
            "fruits_vegetables_nuts"]
        [[CStr "P1"; num 300; num 5; num 20; CNull; CNull];
         [CStr "P2"; CNull; CNull; num 0; CNull; CNull];
         [CStr "P3"; num 520; num 30; num 50; CNull; CNull]]]>
  (<["product_info" :=
      mkDF product_cols
        [[CStr "P1"; CStr "Lait"; CNull];
         [CStr "P2"; CStr "Sugar free"; CStr "Cacao Co"];
         [CStr "P3"; CStr "Noir 85"; CStr "Cacao Co"]]]> ∅)).

(** The table a query returned, empty when it raised. *)
Definition rows_of (r : Result DataFrame) : DataFrame :=
  match r with
  | Ok t => t
  | Raise _ => empty_frame
  end.

(** The database of a frame, empty when it cannot be built. *)
Definition db_of (df : DataFrame) : Conn :=
  match create_sqlite_db df with
  | Ok conn => conn
  | Raise _ => ∅
  end.
End Samples.

(** ** Further definitions for the rest of the program *)

(** The columns [create_sqlite_db] asks the dataset for, in the order it
    asks for them. *)
Definition required_cols : list string :=
  product_cols ++ nutrient_cols ++ derived_cols.





Section Main.
(** The sidebar and the page it selects: the rest of [main], whatever it
    writes, once the dataset and the database are there. *)
Variable pages : DataFrame → Conn → UI unit.

End Main.

(** [FROM name], without an alias: the columns keep their names. *)
Definition sql_from (conn : Conn) (name : string) : Result DataFrame :=
  match conn !! name with
  | Some t =>
      Ok (mkDF (columns t)
               (map (fun r => map (row_get r) (seq 0 (length (columns t)))) (data t)))
  | None => Raise (DatabaseError ("no such table: " +:+ name))
  end.

(** [WHERE c = v] for a literal [v]. *)
Definition sql_where_eq (t : DataFrame) (c : string) (v : Cell) : Result DataFrame :=
  let! j := sql_column t c in
  Ok (mkDF (columns t) (filter (fun row => sql_eqb (row_get row j) v) (data t))).

(** [WHERE c IS NULL] *)
Definition sql_where_null (t : DataFrame) (c : string) : Result DataFrame :=
  let! j := sql_column t c in
  Ok (mkDF (columns t) (filter (fun row => row_get row j = CNull) (data t))).

(** A list of values in the order [ORDER BY ... DESC] asks for: no value
    is followed by a larger one. *)
Definition ranked_desc (values : list Cell) : Prop :=
  Sorted (fun a b => cell_leb b a = true) values.

Section Catalogue.
Variable sql_round : Cell → nat → Cell.
Variable sql_times : Cell → Z → Cell.

(** Nutrient Info Queries, tab 1 ("Top 10 Highest Energy"), of the second
    front end. *)
Definition nutrient_query1 (conn : Conn) : Result DataFrame :=
  let! ni := sql_from conn "nutrient_info" in
  let! ranked := sql_order_by_desc ni "energy_kcal_value" in
  sql_select sql_round sql_times (sql_limit 10 ranked)
    [(ECol "product_code", "product_code");
     (ECol "energy_kcal_value", "energy_kcal_value");
     (ECol "energy_kj_value", "energy_kj_value")].

(** Join Queries, tab 4 ("High Cal & High Sugar"), of the second front
    end, up to its select list. *)
Definition join_query4_rows (conn : Conn) : Result DataFrame :=
  let! pi := sql_table conn "product_info" "pi" in
  let! ni := sql_table conn "nutrient_info" "ni" in
  let! dm := sql_table conn "derived_metrics" "dm" in
  let! pn := sql_join pi ni "pi.product_code" "ni.product_code" in
  let! pnd := sql_join pn dm "pi.product_code" "dm.product_code" in
  let! high_cal := sql_where_eq pnd "dm.calorie_category" (CStr "High Calorie") in
  let! both := sql_where_eq high_cal "dm.sugar_category" (CStr "High Sugar") in
  let! ranked := sql_order_by_desc both "ni.energy-kcal_value" in
  Ok (sql_limit 15 ranked).

Definition join_query4 (conn : Conn) : Result DataFrame :=
  let! rows := join_query4_rows conn in
  sql_select sql_round sql_times rows
    [(ECol "pi.product_name", "product_name");
     (ECol "pi.brand", "brand");
     (ECol "ni.energy-kcal_value", "energy-kcal_value");
     (ECol "ni.sugars_value", "sugars_value")].
(** Product Info Queries, tab 4 ("Missing Product Names"), of the second
    front end. *)
Definition product_query4 (conn : Conn) : Result DataFrame :=
  let! product_info := sql_from conn "product_info" in
  let! unnamed := sql_where_null product_info "product_name" in
  sql_select sql_round sql_times unnamed
    [(ECol "product_code", "product_code"); (ECol "brand", "brand")].
End Catalogue.

(** The ratio cells of the records that have a product code, top to
    bottom: what a join on the product code can see of the ratio column. *)
Definition coded_ratios (df : DataFrame) : list Cell :=
  snd <$> filter (fun p : Cell * Cell => p.1 ≠ CNull)
            (zip (column_values df "product_code")
                 (column_values df "sugar_to_carb_ratio")).

(** * Properties *)

(** ** Column selection copies cells *)

Lemma rbind_Ok {A B} (m : Result A) (k : A → Result B) b :
  rbind m k = Ok b → ∃ a, m = Ok a ∧ k a = Ok b.
Proof. destruct m as [a|e]; simpl; [eauto | discriminate]. Qed.

Ltac ok_inv H :=
  repeat match type of H with
  | rbind _ _ = Ok _ =>
      let x := fresh "x" in
      let Hx := fresh "Hx" in
      apply rbind_Ok in H as (x & Hx & H)
  | Ok _ = Ok _ => injection H as H
  end.

Lemma rmapM_Ok {A B} (f : A → Result B) l bs :
  rmapM f l = Ok bs → Forall2 (fun a b => f a = Ok b) l bs.
Proof.
  revert bs. induction l as [|a l IH]; intros bs H; simpl in H.
  - injection H as <-. constructor.
  - ok_inv H. subst bs. constructor; auto.
Qed.

Lemma rmapM_total {A B} (f : A → Result B) l :
  Forall (fun a => ∃ b, f a = Ok b) l → ∃ bs, rmapM f l = Ok bs.
Proof.
  induction 1 as [|a l [b Hb] _ [bs Hbs]]; simpl; [eauto|].
  rewrite Hb. simpl. rewrite Hbs. simpl. eauto.
Qed.

Lemma index_of_lookup `{EqDecision A} (c : A) cols j :
  index_of c cols = Some j → cols !! j = Some c.
Proof.
  revert j. induction cols as [|c' cols IH]; intros j; simpl; [discriminate|].
  case_decide as Hc.
  - intros [= <-]. by subst.
  - destruct (index_of c cols) as [k|]; simpl; [|discriminate].
    intros [= <-]. simpl. by apply IH.
Qed.

Lemma index_of_is_Some `{EqDecision A} (c : A) cols :
  c ∈ cols ↔ is_Some (index_of c cols).
Proof.
  induction cols as [|c' cols IH]; simpl.
  - split; [by intros ?%elem_of_nil | by intros [? ?]].
  - case_decide as Hc.
    + subst. split; [eauto | intros; left].
    + rewrite elem_of_cons, IH. split.
      * intros [?|[k Hk]]; [done|]. rewrite Hk. simpl. eauto.
      * intros [k Hk]. right. destruct (index_of c cols); [eauto | discriminate].
Qed.

Lemma resolve_Ok df c j : resolve df c = Ok j ↔ index_of c (columns df) = Some j.
Proof.
  unfold resolve. destruct (index_of c (columns df)); split; congruence.
Qed.

Lemma getitem_Ok df cols t :
  getitem df cols = Ok t →
  ∃ idxs, Forall2 (fun c j => index_of c (columns df) = Some j) cols idxs
          ∧ t = mkDF cols (map (fun r => map (row_get r) idxs) (data df)).
Proof.
  unfold getitem. intros H. ok_inv H. exists x. split; [|done].
  apply rmapM_Ok in Hx. eapply Forall2_impl; [exact Hx|].
  intros c j. by rewrite resolve_Ok.
Qed.

Lemma getitem_total df cols :
  cols ⊆ columns df → ∃ t, getitem df cols = Ok t.
Proof.
  intros Hsub. unfold getitem.
  destruct (rmapM_total (resolve df) cols) as [idxs ->]; simpl; [|eauto].
  apply Forall_forall. intros c Hc%Hsub%index_of_is_Some. destruct Hc as [j Hj].
  exists j. by apply resolve_Ok.
Qed.

Lemma getitem_columns_present df cols t :
  getitem df cols = Ok t → cols ⊆ columns df.
Proof.
  intros (idxs & HF & _)%getitem_Ok c Hc.
  apply list_elem_of_lookup in Hc as [n Hn].
  destruct (Forall2_lookup_l _ _ _ _ _ HF Hn) as (j & _ & Hj).
  apply index_of_is_Some. eauto.
Qed.

Lemma getitem_columns df cols t : getitem df cols = Ok t → columns t = cols.
Proof. by intros (idxs & _ & ->)%getitem_Ok. Qed.

Lemma getitem_length df cols t :
  getitem df cols = Ok t → length (data t) = length (data df).
Proof. intros (idxs & _ & ->)%getitem_Ok. simpl. by rewrite length_map. Qed.

Lemma getitem_row_width df cols t row :
  getitem df cols = Ok t → row ∈ data t → length row = length cols.
Proof.
  intros (idxs & HF & ->)%getitem_Ok. simpl.
  intros (r & -> & _)%list_elem_of_fmap. rewrite length_map.
  symmetry. by eapply Forall2_length.
Qed.

Lemma getitem_column df cols t c :
  getitem df cols = Ok t → c ∈ cols → column_values t c = column_values df c.
Proof.
  intros (idxs & HF & ->)%getitem_Ok Hc. unfold column_values. simpl.
  apply index_of_is_Some in Hc as [n Hn]. rewrite Hn.
  destruct (Forall2_lookup_l _ _ _ _ _ HF (index_of_lookup _ _ _ Hn)) as (j & Hj & ->).
  rewrite map_map. apply map_ext. intros r. unfold row_get at 1.
  by rewrite list_lookup_fmap, Hj.
Qed.

Lemma getitem_cell df cols t i c :
  getitem df cols = Ok t → c ∈ cols → cell_at t i c = cell_at df i c.
Proof. intros Ht Hc. unfold cell_at. by rewrite (getitem_column _ _ _ _ Ht Hc). Qed.

(** ** What [create_sqlite_db] stores *)

Lemma to_sql_Ok df name conn conn' :
  to_sql df name conn = Ok conn' →
  frame_fits df = true ∧ conn' = <[name := df]> conn.
Proof.
  unfold to_sql. destruct (repeated_name [] (columns df)); [discriminate|].
  destruct (frame_fits df); [|discriminate]. by intros [= <-].
Qed.

Lemma build_tables_inv df conn0 conn :
  build_tables df conn0 = Ok conn →
  ∃ selected product_info nutrient_info derived_metrics,
    getitem df product_cols = Ok selected
    ∧ drop_duplicates "product_code" selected = Ok product_info
    ∧ getitem df nutrient_cols = Ok nutrient_info
    ∧ getitem df derived_cols = Ok derived_metrics
    ∧ frame_fits product_info = true
    ∧ frame_fits nutrient_info = true
    ∧ frame_fits derived_metrics = true
    ∧ conn = <["derived_metrics" := derived_metrics]>
               (<["nutrient_info" := nutrient_info]>
                  (<["product_info" := product_info]> conn0)).
Proof.
  unfold build_tables. intros H.
  apply rbind_Ok in H as (sel & Hsel & H).
  apply rbind_Ok in H as (pi & Hpi & H).
  apply rbind_Ok in H as (c1 & [Hfpi ->]%to_sql_Ok & H).
  apply rbind_Ok in H as (ni & Hni & H).
  apply rbind_Ok in H as (c2 & [Hfni ->]%to_sql_Ok & H).
  apply rbind_Ok in H as (dm & Hdm & H).
  apply rbind_Ok in H as (c3 & [Hfdm ->]%to_sql_Ok & H).
  injection H as <-. by eexists sel, pi, ni, dm.
Qed.

Lemma build_tables_Ok df conn0 conn :
  build_tables df conn0 = Ok conn →
  ∃ selected product_info nutrient_info derived_metrics,
    getitem df product_cols = Ok selected
    ∧ drop_duplicates "product_code" selected = Ok product_info
    ∧ getitem df nutrient_cols = Ok nutrient_info
    ∧ getitem df derived_cols = Ok derived_metrics
    ∧ conn = <["derived_metrics" := derived_metrics]>
               (<["nutrient_info" := nutrient_info]>
                  (<["product_info" := product_info]> conn0)).
Proof.
  intros (sel & pi & ni & dm & ? & ? & ? & ? & _ & _ & _ & ->)%build_tables_inv.
  by eexists sel, pi, ni, dm.
Qed.

Lemma create_sqlite_db_tables df conn :
  create_sqlite_db df = Ok conn →
  ∃ selected product_info nutrient_info derived_metrics,
    getitem df product_cols = Ok selected
    ∧ drop_duplicates "product_code" selected = Ok product_info
    ∧ getitem df nutrient_cols = Ok nutrient_info
    ∧ getitem df derived_cols = Ok derived_metrics
    ∧ conn !! "product_info" = Some product_info
    ∧ conn !! "nutrient_info" = Some nutrient_info
    ∧ conn !! "derived_metrics" = Some derived_metrics.
Proof.
  intros (sel & pi & ni & dm & Hsel & Hpi & Hni & Hdm & ->)%build_tables_Ok.
  exists sel, pi, ni, dm. by repeat split.
Qed.

Lemma stored_nutrient df conn i c :
  create_sqlite_db df = Ok conn → c ∈ nutrient_cols →
  stored conn "nutrient_info" i c = cell_at df i c.
Proof.
  intros (sel & pi & ni & dm & _ & _ & Hni & _ & _ & Hl & _)%create_sqlite_db_tables Hc.
  unfold stored. rewrite Hl. simpl. by eapply getitem_cell.
Qed.

Lemma stored_derived df conn i c :
  create_sqlite_db df = Ok conn → c ∈ derived_cols →
  stored conn "derived_metrics" i c = cell_at df i c.
Proof.
  intros (sel & pi & ni & dm & _ & _ & _ & Hdm & _ & _ & Hl)%create_sqlite_db_tables Hc.
  unfold stored. rewrite Hl. simpl. by eapply getitem_cell.
Qed.

Ltac in_cols := apply (bool_decide_unpack _); vm_compute; exact I.

(** ** Frames are determined by their columns *)

Lemma index_of_NoDup `{EqDecision A} (c : A) cols n :
  NoDup cols → cols !! n = Some c → index_of c cols = Some n.
Proof.
  intros Hnd. revert n. induction Hnd as [|c' cols Hnotin Hnd IH]; intros n; [done|].
  destruct n as [|n]; simpl.
  - intros [= ->]. by rewrite decide_True.
  - intros Hn. rewrite decide_False.
    + by rewrite (IH n Hn).
    + intros ->. apply Hnotin. by eapply list_elem_of_lookup_2.
Qed.

Lemma column_values_lookup df c j i :
  index_of c (columns df) = Some j →
  column_values df c !! i = (fun r => row_get r j) <$> data df !! i.
Proof. intros Hj. unfold column_values. by rewrite Hj, list_lookup_fmap. Qed.

Lemma column_values_length df c :
  c ∈ columns df → length (column_values df c) = length (data df).
Proof.
  intros [j Hj]%index_of_is_Some. unfold column_values.
  by rewrite Hj, length_map.
Qed.

Lemma frame_ext t t' :
  columns t = columns t' → NoDup (columns t) → columns t ≠ [] →
  (∀ row, row ∈ data t → length row = length (columns t)) →
  (∀ row, row ∈ data t' → length row = length (columns t')) →
  (∀ c, c ∈ columns t → column_values t c = column_values t' c) →
  t = t'.
Proof.
  destruct t as [cols rows], t' as [cols' rows']. simpl.
  intros <- Hnd Hne Hw Hw' Hcol. f_equal.
  assert (length rows = length rows') as Hlen.
  { destruct cols as [|c0 cols0]; [done|].
    rewrite <-(column_values_length (mkDF _ rows) c0) by (simpl; left).
    rewrite <-(column_values_length (mkDF _ rows') c0) by (simpl; left).
    f_equal. apply Hcol. left. }
  apply list_eq_same_length with (length rows); [done..|].
  intros i r r' _ Hr Hr'.
  pose proof (Hw r (list_elem_of_lookup_2 _ _ _ Hr)) as Hlr.
  pose proof (Hw' r' (list_elem_of_lookup_2 _ _ _ Hr')) as Hlr'.
  apply list_eq_same_length with (length cols); [done..|].
  intros n x x' Hn Hx Hx'.
  destruct (lookup_lt_is_Some_2 cols n Hn) as [c Hc].
  pose proof (index_of_NoDup _ _ _ Hnd Hc) as Hidx.
  pose proof (Hcol c (list_elem_of_lookup_2 _ _ _ Hc)) as Heq.
  apply (f_equal (fun l => l !! i)) in Heq.
  rewrite !(column_values_lookup _ _ n) in Heq by done. simpl in Heq.
  rewrite Hr, Hr' in Heq. simpl in Heq. unfold row_get in Heq.
  rewrite Hx, Hx' in Heq. simpl in Heq. congruence.
Qed.

Lemma derived_cols_NoDup : NoDup derived_cols.
Proof. apply (bool_decide_unpack _). vm_compute. exact I. Qed.

(** ** The derived-metrics table is a copy of four input columns *)

Import Samples.

Lemma db_of_labelled : create_sqlite_db labelled = Ok (db_of labelled).
Proof. vm_compute. reflexivity. Qed.

(** C1.  Whenever [create_sqlite_db] builds a database, its
    [derived_metrics] table is the input frame cut down to the columns
    product_code, sugar_to_carb_ratio, calorie_category, sugar_category and
    is_ultra_processed: it has exactly these columns, one row per input
    row, and each of its columns is the input column of that name, cell for
    cell.  Nothing else of the input reaches it: two datasets that agree on
    these five columns get the same table, whatever their nutrient columns
    hold. *)
Theorem derived_metrics_is_projection df conn :
  create_sqlite_db df = Ok conn →
  ∃ dm, conn !! "derived_metrics" = Some dm
    ∧ columns dm = derived_cols
    ∧ length (data dm) = length (data df)
    ∧ (∀ c, c ∈ derived_cols → column_values dm c = column_values df c)
    ∧ (∀ df' conn',
         create_sqlite_db df' = Ok conn' →
         (∀ c, c ∈ derived_cols → column_values df' c = column_values df c) →
         conn' !! "derived_metrics" = Some dm).
Proof.
  intros (sel & pi & ni & dm & _ & _ & _ & Hdm & _ & _ & Hl)%create_sqlite_db_tables.
  exists dm. split; [done|].
  split; [by eapply getitem_columns|].
  split; [by eapply getitem_length|].
  split; [intros c Hc; by eapply getitem_column|].
  intros df' conn'
    (sel' & pi' & ni' & dm' & _ & _ & _ & Hdm' & _ & _ & Hl')%create_sqlite_db_tables Hsame.
  rewrite Hl'. f_equal. apply frame_ext.
  - by rewrite (getitem_columns _ _ _ Hdm), (getitem_columns _ _ _ Hdm').
  - rewrite (getitem_columns _ _ _ Hdm'). apply derived_cols_NoDup.
  - by rewrite (getitem_columns _ _ _ Hdm').
  - intros row Hrow. rewrite (getitem_columns _ _ _ Hdm').
    exact (getitem_row_width _ _ _ _ Hdm' Hrow).
  - intros row Hrow. rewrite (getitem_columns _ _ _ Hdm).
    exact (getitem_row_width _ _ _ _ Hdm Hrow).
  - rewrite (getitem_columns _ _ _ Hdm'). intros c Hc.
    rewrite (getitem_column _ _ _ _ Hdm' Hc), (getitem_column _ _ _ _ Hdm Hc).
    by apply Hsame.
Qed.

Lemma derived_metrics_is_projection_witness :
  ∃ dm, db_of labelled !! "derived_metrics" = Some dm
    ∧ columns dm = derived_cols
    ∧ length (data dm) = length (data labelled)
    ∧ (∀ c, c ∈ derived_cols → column_values dm c = column_values labelled c)
    ∧ (∀ df' conn',
         create_sqlite_db df' = Ok conn' →
         (∀ c, c ∈ derived_cols → column_values df' c = column_values labelled c) →
         conn' !! "derived_metrics" = Some dm).
Proof.
  apply (derived_metrics_is_projection labelled (db_of labelled)).
  vm_compute. reflexivity.
Defined.

(** ** The rules are carried, not computed *)

Lemma db_of_mislabelled : create_sqlite_db mislabelled = Ok (db_of mislabelled).
Proof. vm_compute. reflexivity. Qed.

(** A one-argument rule holds on the database exactly when it holds on the
    input frame. *)
Lemma step_rule_transfer f df conn raw derived :
  create_sqlite_db df = Ok conn →
  raw ∈ nutrient_cols → derived ∈ derived_cols →
  Rules.step_holds f (fun i => stored conn "nutrient_info" i raw)
                     (fun i => stored conn "derived_metrics" i derived)
  ↔ Rules.step_holds f (fun i => cell_at df i raw) (fun i => cell_at df i derived).
Proof.
  intros Hdb Hraw Hder. unfold Rules.step_holds.
  split; intros H i x y Hx Hy; apply (H i).
  - by rewrite (stored_nutrient _ _ _ _ Hdb Hraw).
  - by rewrite (stored_derived _ _ _ _ Hdb Hder).
  - by rewrite <-(stored_nutrient _ _ _ _ Hdb Hraw).
  - by rewrite <-(stored_derived _ _ _ _ Hdb Hder).
Qed.

(** C2, as the program has it.  The ratio of a record in [derived_metrics]
    is the cell of the input's sugar_to_carb_ratio column, unchanged, next
    to the unchanged sugars and carbohydrates cells in [nutrient_info]; so
    the ratios of the database are sugars over carbohydrates (missing when
    carbohydrates is missing or not above 0) exactly when those of the
    input dataset are. *)
Theorem sugar_to_carb_ratio_as_given df conn :
  create_sqlite_db df = Ok conn →
  (∀ i, stored conn "derived_metrics" i "sugar_to_carb_ratio"
        = cell_at df i "sugar_to_carb_ratio")
  ∧ (∀ i, stored conn "nutrient_info" i "sugars_value" = cell_at df i "sugars_value")
  ∧ (∀ i, stored conn "nutrient_info" i "carbohydrates_value"
          = cell_at df i "carbohydrates_value")
  ∧ (Rules.db_ratio_rule conn ↔ Rules.frame_ratio_rule df).
Proof.
  intros Hdb.
  assert (∀ i, stored conn "derived_metrics" i "sugar_to_carb_ratio"
               = cell_at df i "sugar_to_carb_ratio") as Hr
    by (intros i; apply stored_derived; [done | in_cols]).
  assert (∀ i, stored conn "nutrient_info" i "sugars_value"
               = cell_at df i "sugars_value") as Hs
    by (intros i; apply stored_nutrient; [done | in_cols]).
  assert (∀ i, stored conn "nutrient_info" i "carbohydrates_value"
               = cell_at df i "carbohydrates_value") as Hc
    by (intros i; apply stored_nutrient; [done | in_cols]).
  repeat split; try done.
  - intros H i s c r. rewrite <-Hs, <-Hc, <-Hr. apply H.
  - intros H i s c r. rewrite Hs, Hc, Hr. apply H.
Qed.

Lemma sugar_to_carb_ratio_as_given_witness :
  (∀ i, stored (db_of labelled) "derived_metrics" i "sugar_to_carb_ratio"
        = cell_at labelled i "sugar_to_carb_ratio")
  ∧ (∀ i, stored (db_of labelled) "nutrient_info" i "sugars_value"
          = cell_at labelled i "sugars_value")
  ∧ (∀ i, stored (db_of labelled) "nutrient_info" i "carbohydrates_value"
          = cell_at labelled i "carbohydrates_value")
  ∧ (Rules.db_ratio_rule (db_of labelled) ↔ Rules.frame_ratio_rule labelled).
Proof.
  apply (sugar_to_carb_ratio_as_given labelled (db_of labelled)).
  vm_compute. reflexivity.
Defined.

(** C2 fails as stated: a dataset with 5 g of sugars, 20 g of
    carbohydrates and 0.9 in its ratio column is stored as it is, with the
    ratio 0.9 and not 0.25. *)
Lemma sugar_to_carb_ratio_not_computed :
  create_sqlite_db mislabelled = Ok (db_of mislabelled)
  ∧ stored (db_of mislabelled) "nutrient_info" 0 "sugars_value" = Some (num 5)
  ∧ stored (db_of mislabelled) "nutrient_info" 0 "carbohydrates_value" = Some (num 20)
  ∧ stored (db_of mislabelled) "derived_metrics" 0 "sugar_to_carb_ratio" = Some (frac 9 10)
  ∧ ¬ Rules.db_ratio_rule (db_of mislabelled).
Proof.
  split; [exact db_of_mislabelled|].
  assert (stored (db_of mislabelled) "nutrient_info" 0 "sugars_value" = Some (num 5))
    as Hs by (vm_compute; reflexivity).
  assert (stored (db_of mislabelled) "nutrient_info" 0 "carbohydrates_value" = Some (num 20))
    as Hc by (vm_compute; reflexivity).
  assert (stored (db_of mislabelled) "derived_metrics" 0 "sugar_to_carb_ratio"
          = Some (frac 9 10)) as Hr by (vm_compute; reflexivity).
  repeat split; try done.
  intros H. specialize (H 0 _ _ _ Hs Hc Hr). vm_compute in H. discriminate H.
Qed.

(** C3, as the program has it.  The calorie category of a record in
    [derived_metrics] is the cell of the input's calorie_category column,
    unchanged, next to the unchanged energy cell in [nutrient_info]; so
    the categories of the database are the step function of energy
    (Unknown, Low below 300, Moderate from 300 and below 500, High from
    500) exactly when those of the input dataset are. *)
Theorem calorie_category_as_given df conn :
  create_sqlite_db df = Ok conn →
  (∀ i, stored conn "derived_metrics" i "calorie_category"
        = cell_at df i "calorie_category")
  ∧ (∀ i, stored conn "nutrient_info" i "energy-kcal_value"
          = cell_at df i "energy-kcal_value")
  ∧ (Rules.db_calorie_rule conn ↔ Rules.frame_calorie_rule df).
Proof.
  intros Hdb. split; [|split].
  - intros i. apply stored_derived; [done | in_cols].
  - intros i. apply stored_nutrient; [done | in_cols].
  - apply step_rule_transfer; [done | in_cols | in_cols].
Qed.

Lemma calorie_category_as_given_witness :
  (∀ i, stored (db_of labelled) "derived_metrics" i "calorie_category"
        = cell_at labelled i "calorie_category")
  ∧ (∀ i, stored (db_of labelled) "nutrient_info" i "energy-kcal_value"
          = cell_at labelled i "energy-kcal_value")
  ∧ (Rules.db_calorie_rule (db_of labelled) ↔ Rules.frame_calorie_rule labelled).
Proof.
  apply (calorie_category_as_given labelled (db_of labelled)).
  vm_compute. reflexivity.
Defined.

(** C3 fails as stated: a record with energy exactly 300 whose input line
    says Low Calorie is stored as Low Calorie, where the step function
    says Moderate Calorie. *)
Lemma calorie_category_not_computed :
  create_sqlite_db mislabelled = Ok (db_of mislabelled)
  ∧ stored (db_of mislabelled) "nutrient_info" 0 "energy-kcal_value" = Some (num 300)
  ∧ stored (db_of mislabelled) "derived_metrics" 0 "calorie_category"
    = Some (CStr "Low Calorie")
  ∧ Rules.calorie_category_of (num 300) = CStr "Moderate Calorie"
  ∧ ¬ Rules.db_calorie_rule (db_of mislabelled).
Proof.
  split; [exact db_of_mislabelled|].
  assert (stored (db_of mislabelled) "nutrient_info" 0 "energy-kcal_value"
          = Some (num 300)) as He by (vm_compute; reflexivity).
  assert (stored (db_of mislabelled) "derived_metrics" 0 "calorie_category"
          = Some (CStr "Low Calorie")) as Hk by (vm_compute; reflexivity).
  repeat split; try done.
  intros H. specialize (H 0 _ _ He Hk). vm_compute in H. discriminate H.
Qed.

(** C4, as the program has it.  The sugar category of a record in
    [derived_metrics] is the cell of the input's sugar_category column,
    unchanged, next to the unchanged sugars cell in [nutrient_info]; so the
    categories of the database are the step function of sugars (Unknown,
    Low below 5, Moderate from 5 and below 22.5, High from 22.5) exactly
    when those of the input dataset are. *)
Theorem sugar_category_as_given df conn :
  create_sqlite_db df = Ok conn →
  (∀ i, stored conn "derived_metrics" i "sugar_category"
        = cell_at df i "sugar_category")
  ∧ (∀ i, stored conn "nutrient_info" i "sugars_value" = cell_at df i "sugars_value")
  ∧ (Rules.db_sugar_rule conn ↔ Rules.frame_sugar_rule df).
Proof.
  intros Hdb. split; [|split].
  - intros i. apply stored_derived; [done | in_cols].
  - intros i. apply stored_nutrient; [done | in_cols].
  - apply step_rule_transfer; [done | in_cols | in_cols].
Qed.

Lemma sugar_category_as_given_witness :
  (∀ i, stored (db_of labelled) "derived_metrics" i "sugar_category"
        = cell_at labelled i "sugar_category")
  ∧ (∀ i, stored (db_of labelled) "nutrient_info" i "sugars_value"
          = cell_at labelled i "sugars_value")
  ∧ (Rules.db_sugar_rule (db_of labelled) ↔ Rules.frame_sugar_rule labelled).
Proof.
  apply (sugar_category_as_given labelled (db_of labelled)).
  vm_compute. reflexivity.
Defined.

(** C4 fails as stated: a record with sugars exactly 5 whose input line
    says Low Sugar is stored as Low Sugar, where the step function says
    Moderate Sugar. *)
Lemma sugar_category_not_computed :
  create_sqlite_db mislabelled = Ok (db_of mislabelled)
  ∧ stored (db_of mislabelled) "nutrient_info" 0 "sugars_value" = Some (num 5)
  ∧ stored (db_of mislabelled) "derived_metrics" 0 "sugar_category"
    = Some (CStr "Low Sugar")
  ∧ Rules.sugar_category_of (num 5) = CStr "Moderate Sugar"
  ∧ ¬ Rules.db_sugar_rule (db_of mislabelled).
Proof.
  split; [exact db_of_mislabelled|].
  assert (stored (db_of mislabelled) "nutrient_info" 0 "sugars_value"
          = Some (num 5)) as Hs by (vm_compute; reflexivity).
  assert (stored (db_of mislabelled) "derived_metrics" 0 "sugar_category"
          = Some (CStr "Low Sugar")) as Hk by (vm_compute; reflexivity).
  repeat split; try done.
  intros H. specialize (H 0 _ _ Hs Hk). vm_compute in H. discriminate H.
Qed.

(** C5, as the program has it.  The ultra-processed flag of a record in
    [derived_metrics] is the cell of the input's is_ultra_processed column,
    unchanged, next to the unchanged NOVA group in [nutrient_info]; so the
    flags of the database are Yes for NOVA group 4 and No otherwise exactly
    when those of the input dataset are. *)
Theorem is_ultra_processed_as_given df conn :
  create_sqlite_db df = Ok conn →
  (∀ i, stored conn "derived_metrics" i "is_ultra_processed"
        = cell_at df i "is_ultra_processed")
  ∧ (∀ i, stored conn "nutrient_info" i "nova-group" = cell_at df i "nova-group")
  ∧ (Rules.db_ultra_rule conn ↔ Rules.frame_ultra_rule df).
Proof.
  intros Hdb. split; [|split].
  - intros i. apply stored_derived; [done | in_cols].
  - intros i. apply stored_nutrient; [done | in_cols].
  - apply step_rule_transfer; [done | in_cols | in_cols].
Qed.

Lemma is_ultra_processed_as_given_witness :
  (∀ i, stored (db_of labelled) "derived_metrics" i "is_ultra_processed"
        = cell_at labelled i "is_ultra_processed")
  ∧ (∀ i, stored (db_of labelled) "nutrient_info" i "nova-group"
          = cell_at labelled i "nova-group")
  ∧ (Rules.db_ultra_rule (db_of labelled) ↔ Rules.frame_ultra_rule labelled).
Proof.
  apply (is_ultra_processed_as_given labelled (db_of labelled)).
  vm_compute. reflexivity.
Defined.

(** C5 fails as stated: a record of NOVA group 1 whose input line says Yes
    is stored as Yes. *)
Lemma is_ultra_processed_not_computed :
  create_sqlite_db mislabelled = Ok (db_of mislabelled)
  ∧ stored (db_of mislabelled) "nutrient_info" 0 "nova-group" = Some (num 1)
  ∧ stored (db_of mislabelled) "derived_metrics" 0 "is_ultra_processed"
    = Some (CStr "Yes")
  ∧ Rules.is_ultra_processed_of (num 1) = CStr "No"
  ∧ ¬ Rules.db_ultra_rule (db_of mislabelled).
Proof.
  split; [exact db_of_mislabelled|].
  assert (stored (db_of mislabelled) "nutrient_info" 0 "nova-group"
          = Some (num 1)) as Hn by (vm_compute; reflexivity).
  assert (stored (db_of mislabelled) "derived_metrics" 0 "is_ultra_processed"
          = Some (CStr "Yes")) as Hk by (vm_compute; reflexivity).
  repeat split; try done.
  intros H. specialize (H 0 _ _ Hn Hk). vm_compute in H. discriminate H.
Qed.

(** ** Duplicated product codes *)

Section DropDuplicates.
Variable key : list Cell → Cell.

Lemma drop_dup_rows_elem seen rows r :
  r ∈ drop_dup_rows key seen rows → r ∈ rows ∧ key r ∉ seen.
Proof.
  revert seen. induction rows as [|r' rows IH]; intros seen; simpl.
  - by intros ?%elem_of_nil.
  - case_decide as Hseen.
    + intros [? ?]%IH. split; [by right | done].
    + intros [->|Hr]%elem_of_cons; [split; [by left | done]|].
      apply IH in Hr as [? Hn]. split; [by right|].
      intros ?. apply Hn. by right.
Qed.

Lemma drop_dup_rows_NoDup seen rows :
  NoDup (map key (drop_dup_rows key seen rows)).
Proof.
  revert seen. induction rows as [|r rows IH]; intros seen; simpl.
  - constructor.
  - case_decide as Hseen; [apply IH|]. simpl. constructor; [|apply IH].
    intros (r' & Hk & Hr')%list_elem_of_fmap.
    apply drop_dup_rows_elem in Hr' as [_ Hn]. apply Hn. rewrite Hk. by left.
Qed.

(** The row kept for a key is the first row of the input with that key. *)
Lemma drop_dup_rows_first seen rows code i :
  code ∉ seen → index_of code (map key rows) = Some i →
  ∃ j, index_of code (map key (drop_dup_rows key seen rows)) = Some j
       ∧ drop_dup_rows key seen rows !! j = rows !! i.
Proof.
  revert seen i. induction rows as [|r rows IH]; intros seen i Hcode; simpl; [done|].
  destruct (decide (code = key r)) as [->|Hne].
  - intros [= <-]. rewrite decide_False by done. simpl.
    rewrite decide_True by done. by exists 0.
  - destruct (index_of code (map key rows)) as [i'|]; simpl; [|done].
    intros [= <-]. case_decide as Hseen.
    + destruct (IH seen i' Hcode eq_refl) as (j & Hj & Hrow). by exists j.
    + destruct (IH (key r :: seen) i') as (j & Hj & Hrow); [|done|].
      { intros [?|?]%elem_of_cons; done. }
      exists (S j). simpl. rewrite decide_False by done. by rewrite Hj.
Qed.

(** Without duplicates nothing is dropped. *)
Lemma drop_dup_rows_id seen rows :
  NoDup (map key rows) → (∀ r, r ∈ rows → key r ∉ seen) →
  drop_dup_rows key seen rows = rows.
Proof.
  revert seen. induction rows as [|r rows IH]; intros seen Hnd Hseen; simpl; [done|].
  simpl in Hnd. apply NoDup_cons in Hnd as [Hr Hnd].
  rewrite decide_False by (apply Hseen; left). f_equal.
  apply IH; [done|]. intros r' Hr' [Heq|?]%elem_of_cons.
  - apply Hr. rewrite <-Heq. by apply list_elem_of_fmap_2.
  - by apply (Hseen r'); [right|].
Qed.
End DropDuplicates.

Lemma drop_duplicates_Ok c t t' :
  drop_duplicates c t = Ok t' →
  ∃ k, index_of c (columns t) = Some k
       ∧ t' = mkDF (columns t) (drop_dup_rows (fun r => row_get r k) [] (data t)).
Proof.
  unfold drop_duplicates. intros H. ok_inv H. apply resolve_Ok in Hx. eauto.
Qed.

Lemma db_of_duplicated : create_sqlite_db duplicated = Ok (db_of duplicated).
Proof. vm_compute. reflexivity. Qed.

(** C7, as the program has it.  [derived_metrics] has one row per input
    row, in input order and with the input's cells, records without any
    nutrient included; it does not merge rows, so its product codes are
    unique exactly when the input's are.  Only [product_info] has unique
    product codes: every code of the input is in it once, and for a code
    that occurs several times the first line's name and brand are kept. *)
Theorem tables_keep_every_record df conn :
  create_sqlite_db df = Ok conn →
  ∃ pi dm,
    conn !! "product_info" = Some pi
    ∧ conn !! "derived_metrics" = Some dm
    ∧ length (data dm) = length (data df)
    ∧ (∀ c, c ∈ derived_cols → column_values dm c = column_values df c)
    ∧ (NoDup (column_values dm "product_code")
       ↔ NoDup (column_values df "product_code"))
    ∧ NoDup (column_values pi "product_code")
    ∧ (∀ code, code ∈ column_values pi "product_code"
               ↔ code ∈ column_values df "product_code")
    ∧ (∀ code i,
         index_of code (column_values df "product_code") = Some i →
         ∃ j, index_of code (column_values pi "product_code") = Some j
              ∧ ∀ c, c ∈ product_cols → cell_at pi j c = cell_at df i c).
Proof.
  intros (sel & pi & ni & dm & Hsel & Hpi & _ & Hdm & Hlpi & _ & Hldm)%create_sqlite_db_tables.
  exists pi, dm. split; [done|]. split; [done|].
  split; [by eapply getitem_length|].
  split; [intros c Hc; by eapply getitem_column|].
  split; [by rewrite (getitem_column _ _ _ "product_code" Hdm) by in_cols|].
  apply drop_duplicates_Ok in Hpi as (k & Hk & ->).
  assert (column_values sel "product_code" = column_values df "product_code") as Hcodes
    by (eapply getitem_column; [done | in_cols]).
  set (key := fun r : list Cell => row_get r k) in *.
  assert (column_values sel "product_code" = map key (data sel)) as Hsel_codes
    by (unfold column_values; by rewrite Hk).
  assert (column_values (mkDF (columns sel) (drop_dup_rows key [] (data sel))) "product_code"
          = map key (drop_dup_rows key [] (data sel))) as Hpi_codes
    by (unfold column_values; simpl; by rewrite Hk).
  rewrite Hpi_codes, <-Hcodes, Hsel_codes.
  split; [apply drop_dup_rows_NoDup|]. split.
  - intros code. split.
    + intros (r & -> & [Hr _]%drop_dup_rows_elem)%list_elem_of_fmap.
      by apply list_elem_of_fmap_2.
    + intros [i Hi]%index_of_is_Some.
      destruct (drop_dup_rows_first key [] _ _ _ (not_elem_of_nil _) Hi) as (j & Hj & _).
      apply index_of_is_Some. eauto.
  - intros code i Hi.
    destruct (drop_dup_rows_first key [] _ _ _ (not_elem_of_nil _) Hi) as (j & Hj & Hrow).
    exists j. split; [done|]. intros c Hc.
    rewrite <-(getitem_cell _ _ _ i c Hsel Hc). unfold cell_at.
    rewrite <-(getitem_columns _ _ _ Hsel) in Hc.
    apply index_of_is_Some in Hc as [n Hn].
    rewrite (column_values_lookup _ _ n) by done.
    rewrite (column_values_lookup _ _ n) by done. simpl. by rewrite Hrow.
Qed.

Lemma tables_keep_every_record_witness :
  ∃ pi dm,
    db_of duplicated !! "product_info" = Some pi
    ∧ db_of duplicated !! "derived_metrics" = Some dm
    ∧ length (data dm) = length (data duplicated)
    ∧ (∀ c, c ∈ derived_cols → column_values dm c = column_values duplicated c)
    ∧ (NoDup (column_values dm "product_code")
       ↔ NoDup (column_values duplicated "product_code"))
    ∧ NoDup (column_values pi "product_code")
    ∧ (∀ code, code ∈ column_values pi "product_code"
               ↔ code ∈ column_values duplicated "product_code")
    ∧ (∀ code i,
         index_of code (column_values duplicated "product_code") = Some i →
         ∃ j, index_of code (column_values pi "product_code") = Some j
              ∧ ∀ c, c ∈ product_cols → cell_at pi j c = cell_at duplicated i c).
Proof.
  apply (tables_keep_every_record duplicated (db_of duplicated)).
  vm_compute. reflexivity.
Defined.

(** C7 fails as stated: with the product code P1 on two lines, both lines
    are in [derived_metrics], so its codes are not unique and neither line
    has replaced the other; and [product_info] has the name of the first
    line, not of the last. *)
Lemma duplicated_codes_are_kept :
  ∃ pi dm,
    create_sqlite_db duplicated = Ok (db_of duplicated)
    ∧ db_of duplicated !! "product_info" = Some pi
    ∧ db_of duplicated !! "derived_metrics" = Some dm
    ∧ column_values dm "product_code" = [CStr "P1"; CStr "P1"]
    ∧ column_values dm "calorie_category" = [CStr "High Calorie"; CStr "Low Calorie"]
    ∧ ¬ NoDup (column_values dm "product_code")
    ∧ column_values duplicated "product_name" = [CStr "First"; CStr "Last"]
    ∧ column_values pi "product_name" = [CStr "First"].
Proof.
  eexists _, _. split; [exact db_of_duplicated|].
  split; [vm_compute; reflexivity|]. split; [vm_compute; reflexivity|].
  split; [vm_compute; reflexivity|]. split; [vm_compute; reflexivity|].
  split; [|split; vm_compute; reflexivity].
  change (¬ NoDup [CStr "P1"; CStr "P1"]).
  intros [Hnotin _]%NoDup_cons. apply Hnotin. left.
Qed.

(** ** Totality *)

Lemma load_data_returns csv :
  ∃ df out, load_data csv = (Ok df, out).
Proof. destruct csv as [df|e]; vm_compute; eauto. Qed.

Lemma required_cols_split df :
  required_cols ⊆ columns df
  ↔ product_cols ⊆ columns df ∧ nutrient_cols ⊆ columns df ∧ derived_cols ⊆ columns df.
Proof.
  unfold required_cols. split.
  - intros H. repeat split; intros c Hc; apply H; rewrite !elem_of_app; auto.
  - intros (Hp & Hn & Hd) c. rewrite !elem_of_app. intros [?|[?|?]]; auto.
Qed.

Lemma required_cols_elem c :
  c ∈ required_cols ↔ c ∈ product_cols ∨ c ∈ nutrient_cols ∨ c ∈ derived_cols.
Proof. unfold required_cols. by rewrite !elem_of_app. Qed.

Lemma forallb_Forall {A} (f : A → bool) l :
  forallb f l = true ↔ Forall (fun x => f x = true) l.
Proof.
  induction l as [|a l IH]; simpl; [by split; [constructor|]|].
  by rewrite andb_true_iff, Forall_cons, IH.
Qed.

Lemma frame_fits_cells t :
  frame_fits t = true ↔ ∀ r x, r ∈ data t → x ∈ r → cell_fits x = true.
Proof.
  unfold frame_fits. rewrite forallb_Forall, Forall_forall. split.
  - intros H r x Hr Hx. specialize (H r Hr).
    rewrite forallb_Forall, Forall_forall in H. auto.
  - intros H r Hr. rewrite forallb_Forall, Forall_forall. eauto.
Qed.

(** A selection can be stored exactly when the selected columns can. *)
Lemma getitem_fits df cols t :
  getitem df cols = Ok t →
  frame_fits t = true ↔ ∀ c, c ∈ cols → column_fits df c.
Proof.
  intros (idxs & HF & ->)%getitem_Ok. rewrite frame_fits_cells. simpl.
  unfold column_fits. split.
  - intros Hfit c Hc. apply list_elem_of_lookup in Hc as [n Hn].
    destruct (Forall2_lookup_l _ _ _ _ _ HF Hn) as (j & Hj & Hidx).
    unfold column_values. rewrite Hidx. apply Forall_forall.
    intros x (r & -> & Hr)%list_elem_of_fmap.
    apply (Hfit (map (row_get r) idxs)).
    + by apply (list_elem_of_fmap_2 (fun r => map (row_get r) idxs)).
    + apply (list_elem_of_fmap_2 (row_get r)). by eapply list_elem_of_lookup_2.
  - intros Hcol row x (r & -> & Hr)%list_elem_of_fmap (j & -> & Hj)%list_elem_of_fmap.
    apply list_elem_of_lookup in Hj as [n Hn].
    destruct (Forall2_lookup_r _ _ _ _ _ HF Hn) as (c & Hc & Hidx).
    specialize (Hcol c (list_elem_of_lookup_2 _ _ _ Hc)).
    unfold column_values in Hcol. rewrite Hidx in Hcol.
    rewrite Forall_forall in Hcol. apply Hcol.
    by apply (list_elem_of_fmap_2 (fun r => row_get r j)).
Qed.

Lemma drop_duplicates_fits c t t' :
  drop_duplicates c t = Ok t' → frame_fits t = true → frame_fits t' = true.
Proof.
  intros (k & _ & ->)%drop_duplicates_Ok. rewrite !frame_fits_cells. simpl.
  intros Hfit r x [Hr _]%drop_dup_rows_elem Hx. eauto.
Qed.

Lemma drop_duplicates_selected df sel :
  getitem df product_cols = Ok sel →
  ∃ pi, drop_duplicates "product_code" sel = Ok pi ∧ columns pi = product_cols.
Proof.
  intros Hsel. unfold drop_duplicates, resolve.
  rewrite (getitem_columns _ _ _ Hsel). simpl. eauto.
Qed.

Lemma to_sql_stores df name conn :
  repeated_name [] (columns df) = None → frame_fits df = true →
  to_sql df name conn = Ok (<[name := df]> conn).
Proof. unfold to_sql. by intros -> ->. Qed.

Lemma to_sql_Raise df name conn e :
  repeated_name [] (columns df) = None → to_sql df name conn = Raise e →
  e = OverflowError overflow_msg ∧ frame_fits df = false.
Proof.
  unfold to_sql. intros ->. destruct (frame_fits df); [discriminate|].
  by intros [= <-].
Qed.

(** The three selections in sequence, each stored as it is made. *)
Lemma build_tables_stores df conn0 sel pi ni dm :
  getitem df product_cols = Ok sel →
  drop_duplicates "product_code" sel = Ok pi →
  getitem df nutrient_cols = Ok ni →
  getitem df derived_cols = Ok dm →
  frame_fits pi = true → frame_fits ni = true → frame_fits dm = true →
  build_tables df conn0
  = Ok (<["derived_metrics" := dm]>
          (<["nutrient_info" := ni]> (<["product_info" := pi]> conn0))).
Proof.
  intros Hsel Hpi Hni Hdm Hfpi Hfni Hfdm. unfold build_tables.
  rewrite Hsel. simpl. rewrite Hpi. simpl.
  destruct (drop_duplicates_selected _ _ Hsel) as (pi' & Hpi' & Hcols).
  assert (pi' = pi) as -> by congruence.
  rewrite to_sql_stores by (by rewrite ?Hcols). simpl.
  rewrite Hni. simpl.
  rewrite to_sql_stores by (by rewrite ?(getitem_columns _ _ _ Hni)). simpl.
  rewrite Hdm. simpl.
  rewrite to_sql_stores by (by rewrite ?(getitem_columns _ _ _ Hdm)). done.
Qed.

Lemma create_sqlite_db_succeeds df :
  required_cols ⊆ columns df → (∀ c, c ∈ required_cols → column_fits df c) →
  ∃ conn dm,
    create_sqlite_db df = Ok conn
    ∧ conn !! "derived_metrics" = Some dm
    ∧ length (data dm) = length (data df).
Proof.
  intros (Hp & Hn & Hd)%required_cols_split Hfit.
  destruct (getitem_total _ _ Hp) as [sel Hsel].
  destruct (getitem_total _ _ Hn) as [ni Hni].
  destruct (getitem_total _ _ Hd) as [dm Hdm].
  destruct (drop_duplicates_selected _ _ Hsel) as (pi & Hpi & _).
  eexists _, dm. split; [|split].
  - apply (build_tables_stores _ _ sel pi ni dm); try done.
    + apply (drop_duplicates_fits _ _ _ Hpi), (getitem_fits _ _ _ Hsel).
      intros c Hc. apply Hfit, required_cols_elem. auto.
    + apply (getitem_fits _ _ _ Hni).
      intros c Hc. apply Hfit, required_cols_elem. auto.
    + apply (getitem_fits _ _ _ Hdm).
      intros c Hc. apply Hfit, required_cols_elem. auto.
  - apply lookup_insert_eq.
  - by eapply getitem_length.
Qed.

(** C8, as the program has it.  For a dataset with distinct column names
    (as [read_csv] names them) that has the columns the three tables are
    cut from, and in which no integer of those columns is outside the 64
    bits SQLite stores, [create_sqlite_db] raises nothing, whatever else
    its cells hold and however many of them are missing: it returns a
    database whose [derived_metrics] table has a row for every input row.
    Loading does not raise either: a file that cannot be read ends in
    [st.error] and the value [None]. *)
Theorem create_sqlite_db_total df :
  NoDup (columns df) →
  required_cols ⊆ columns df →
  (∀ c, c ∈ required_cols → column_fits df c) →
  (∃ conn dm,
     create_sqlite_db df = Ok conn
     ∧ conn !! "derived_metrics" = Some dm
     ∧ length (data dm) = length (data df))
  ∧ (∀ csv, ∃ loaded out, load_data csv = (Ok loaded, out)).
Proof.
  intros _ Hcols Hfit. split; [|apply load_data_returns].
  by apply create_sqlite_db_succeeds.
Qed.

Lemma create_sqlite_db_total_witness :
  (∃ conn dm,
     create_sqlite_db barcodes_only = Ok conn
     ∧ conn !! "derived_metrics" = Some dm
     ∧ length (data dm) = length (data barcodes_only))
  ∧ (∀ csv, ∃ loaded out, load_data csv = (Ok loaded, out)).
Proof.
  apply (create_sqlite_db_total barcodes_only).
  - apply (bool_decide_unpack _). vm_compute. exact I.
  - apply (bool_decide_unpack _). vm_compute. exact I.
  - apply Forall_forall. apply (bool_decide_unpack _). vm_compute. exact I.
Defined.

(** C8 fails as stated: a record with every field in place, whose product
    code is the number 9223372036854775808, makes [create_sqlite_db] raise
    [OverflowError] when the product table is stored. *)
Lemma create_sqlite_db_overflows :
  NoDup (columns long_code)
  ∧ required_cols ⊆ columns long_code
  ∧ create_sqlite_db long_code = Raise (OverflowError overflow_msg)
  ∧ ¬ ∃ conn, create_sqlite_db long_code = Ok conn.
Proof.
  split; [apply (bool_decide_unpack _); vm_compute; exact I|].
  split; [apply (bool_decide_unpack _); vm_compute; exact I|].
  assert (create_sqlite_db long_code = Raise (OverflowError overflow_msg)) as Hraise
    by (vm_compute; reflexivity).
  split; [done|]. intros [conn Hconn]. congruence.
Qed.

(** ** Running the load-and-derive step again *)

Lemma cached_create_sqlite_db_again df cache :
  cached_create_sqlite_db df (cached_create_sqlite_db df cache).2
  = cached_create_sqlite_db df cache.
Proof.
  unfold cached_create_sqlite_db.
  destruct (cache_lookup df cache) as [conn|] eqn:Hhit; simpl.
  - by rewrite Hhit.
  - destruct (create_sqlite_db df) as [conn|e] eqn:Hdb; simpl.
    + by rewrite decide_True.
    + by rewrite Hhit.
Qed.

Lemma build_tables_again df conn0 :
  rbind (build_tables df conn0) (build_tables df) = build_tables df conn0.
Proof.
  destruct (build_tables df conn0) as [conn|e] eqn:Hb; simpl; [|done].
  apply build_tables_inv in Hb
    as (sel & pi & ni & dm & Hsel & Hpi & Hni & Hdm & Hfpi & Hfni & Hfdm & ->).
  rewrite (build_tables_stores _ _ sel pi ni dm) by done.
  f_equal. apply map_eq. intros k.
  destruct (decide (k = "derived_metrics")) as [->|];
    [by rewrite !lookup_insert_eq|rewrite !(lookup_insert_ne _ "derived_metrics") by done].
  destruct (decide (k = "nutrient_info")) as [->|];
    [by rewrite !lookup_insert_eq|rewrite !(lookup_insert_ne _ "nutrient_info") by done].
  destruct (decide (k = "product_info")) as [->|];
    [by rewrite !lookup_insert_eq|rewrite !(lookup_insert_ne _ "product_info") by done].
  repeat (rewrite lookup_insert_ne by done). done.
Qed.

(** C9.  Running the load-and-derive step a second time on the same
    dataset, from the cache the first run left, gives what the first run
    gave: the same database (or the same exception), the same page output
    and the same cache.  Building the three tables again over a connection
    that already holds them leaves the connection as it is, since each
    table replaces the one of its name. *)
Theorem load_and_derive_twice csv cache df conn0 :
  load_and_derive csv (load_and_derive csv cache).2 = load_and_derive csv cache
  ∧ cached_create_sqlite_db df (cached_create_sqlite_db df cache).2
    = cached_create_sqlite_db df cache
  ∧ rbind (build_tables df conn0) (build_tables df) = build_tables df conn0.
Proof.
  split; [|split; [apply cached_create_sqlite_db_again | apply build_tables_again]].
  unfold load_and_derive.
  destruct (load_data csv) as [[[frame|]|e] out]; simpl; [|done..].
  pose proof (cached_create_sqlite_db_again frame cache) as Hagain.
  destruct (cached_create_sqlite_db frame cache) as [r cache'] eqn:Hfirst. simpl in *.
  rewrite Hagain. by destruct r.
Qed.

(** ** Failing queries *)

(** C10.  Whatever the SQL engine does with a query, [execute_query]
    returns: the engine's result and no message when the query succeeds,
    and, when the query raises, the empty frame together with one
    [st.error] message that carries the text of the exception.  The pages
    of the first front end do the same around the query and its rendering:
    the page ends normally, and a query that raises leaves exactly the
    message "Error executing query: ..." on it. *)
Theorem execute_query_catches
    (read_sql_query : string → Conn → Result DataFrame)
    (conn : Conn) (query : string) (render : DataFrame → UI unit) :
  match read_sql_query query conn with
  | Ok result =>
      execute_query read_sql_query conn query = (Ok result, [])
  | Raise e =>
      execute_query read_sql_query conn query
      = (Ok empty_frame, [StError ("❌ Query Error: " +:+ exn_str e)])
      ∧ query_page read_sql_query conn query render
        = (Ok tt, [StError ("Error executing query: " +:+ exn_str e)])
  end
  ∧ ∃ out, query_page read_sql_query conn query render = (Ok tt, out).
Proof.
  unfold execute_query, query_page, try_except, ui_bind, ui_lift, ui_ret, st_error.
  destruct (read_sql_query query conn) as [result|e]; simpl.
  - split; [done|]. destruct (render result) as [[[]|e] out]; simpl; eauto.
  - split; [done|]. eauto.
Qed.

(** ** The two ratio rankings *)

Lemma insert_desc_elem key r x sorted :
  r ∈ insert_desc key x sorted ↔ r = x ∨ r ∈ sorted.
Proof.
  induction sorted as [|r' sorted IH]; simpl.
  - rewrite list_elem_of_singleton, elem_of_nil. tauto.
  - destruct (cell_leb (key r') (key x)).
    + by rewrite elem_of_cons.
    + rewrite !elem_of_cons, IH. tauto.
Qed.

Lemma sort_desc_elem key r rows : r ∈ sort_desc key rows ↔ r ∈ rows.
Proof.
  unfold sort_desc. induction rows as [|x rows IH]; simpl; [done|].
  by rewrite insert_desc_elem, IH, elem_of_cons.
Qed.

Lemma sort_desc_length key rows : length (sort_desc key rows) = length rows.
Proof.
  assert (∀ x l, length (insert_desc key x l) = S (length l)) as Hins.
  { intros x l. induction l as [|r' l IH]; simpl; [done|].
    destruct (cell_leb (key r') (key x)); simpl; by rewrite ?IH. }
  unfold sort_desc. induction rows as [|x rows IH]; simpl; [done|].
  by rewrite Hins, IH.
Qed.

Lemma sql_column_Ok t c j : sql_column t c = Ok j ↔ index_of c (columns t) = Some j.
Proof.
  unfold sql_column. destruct (index_of c (columns t)); split; congruence.
Qed.

Lemma sql_where_not_null_Ok t c t' :
  sql_where_not_null t c = Ok t' →
  ∃ j, index_of c (columns t) = Some j
       ∧ t' = mkDF (columns t) (filter (fun row => row_get row j ≠ CNull) (data t)).
Proof.
  unfold sql_where_not_null. intros (j & Hj%sql_column_Ok & [= <-])%rbind_Ok. eauto.
Qed.

Lemma sql_order_by_desc_Ok t c t' :
  sql_order_by_desc t c = Ok t' →
  ∃ j, index_of c (columns t) = Some j
       ∧ t' = mkDF (columns t) (sort_desc (fun row => row_get row j) (data t)).
Proof.
  unfold sql_order_by_desc. intros (j & Hj%sql_column_Ok & [= <-])%rbind_Ok. eauto.
Qed.

(** Query 27 never returns a record without a ratio. *)
Lemma q27_excludes_undefined conn t :
  q27_rows conn = Ok t → CNull ∉ column_values t "d.sugar_to_carb_ratio".
Proof.
  unfold q27_rows. intros H.
  apply rbind_Ok in H as (d & _ & H). apply rbind_Ok in H as (p & _ & H).
  apply rbind_Ok in H as (n & _ & H). apply rbind_Ok in H as (dp & _ & H).
  apply rbind_Ok in H as (dpn & _ & H).
  apply rbind_Ok in H as (kept & (j & Hj & ->)%sql_where_not_null_Ok & H).
  apply rbind_Ok in H as (ranked & (j' & Hj' & ->)%sql_order_by_desc_Ok & [= <-]).
  simpl in *. unfold column_values, sql_limit. simpl. rewrite Hj.
  intros (row & Hnull & Hrow)%list_elem_of_fmap.
  apply elem_of_take in Hrow as (i & Hrow & _).
  apply list_elem_of_lookup_2, sort_desc_elem in Hrow.
  apply list_elem_of_filter in Hrow as [Hkeep _]. by apply Hkeep.
Qed.

(** C6, on a dataset of one product without carbohydrates.  Query 27 of
    the first front end filters on [IS NOT NULL] and returns nothing for
    it; "Top 5 by Ratio" of the second front end has no such filter,
    ranks the missing ratio last and, with fewer than five products ahead
    of it, returns the product with its missing ratio.  Neither query
    raises. *)
Theorem join_query7_keeps_undefined_ratio
    (sql_round : Cell → nat → Cell) (sql_times : Cell → Z → Cell) :
  create_sqlite_db no_ratio = Ok (db_of no_ratio)
  ∧ stored (db_of no_ratio) "nutrient_info" 0 "carbohydrates_value" = Some (num 0)
  ∧ stored (db_of no_ratio) "derived_metrics" 0 "sugar_to_carb_ratio" = Some CNull
  ∧ join_query7 sql_round sql_times (db_of no_ratio)
    = Ok (mkDF ["product_name"; "brand"; "sugar_to_carb_ratio";
                "calorie_category"; "sugar_category"]
               [[CStr "Sugar free"; CStr "Cacao Co"; CNull;
                 CStr "Unknown"; CStr "Unknown"]])
  ∧ q27 sql_round sql_times prebuilt_no_ratio
    = Ok (mkDF ["product_name"; "brand"; "sugar_to_carb_ratio";
                "percentage_sugar"; "sugars"; "carbohydrates";
                "calorie_category"] []).
Proof. repeat split; vm_compute; reflexivity. Qed.

(** * Further properties of the program *)

(** ** Datasets that cannot be stored *)

Lemma rmapM_Raise {A B} (f : A → Result B) l e :
  rmapM f l = Raise e → ∃ a, a ∈ l ∧ f a = Raise e.
Proof.
  induction l as [|a l IH]; simpl; [discriminate|].
  destruct (f a) as [b|e'] eqn:Hfa; simpl.
  - destruct (rmapM f l) as [bs|e'']; simpl; [discriminate|].
    intros [= ->]. destruct IH as (a' & Ha' & Hf); [done|].
    exists a'. split; [by right | done].
  - intros [= ->]. exists a. split; [by left | done].
Qed.

Lemma getitem_Raise df cols e :
  getitem df cols = Raise e → ∃ c, e = KeyError c ∧ c ∈ cols ∧ c ∉ columns df.
Proof.
  unfold getitem. destruct (rmapM (resolve df) cols) as [idxs|e'] eqn:Hm; simpl; [discriminate|].
  intros [= ->]. apply rmapM_Raise in Hm as (c & Hc & Hres).
  unfold resolve in Hres. destruct (index_of c (columns df)) as [j|] eqn:Hj; [discriminate|].
  injection Hres as <-. exists c. split; [done|]. split; [done|].
  intros [j Hj']%index_of_is_Some. congruence.
Qed.

(** A selection that cannot be stored has a column that cannot. *)
Lemma getitem_unfit df cols t :
  getitem df cols = Ok t → frame_fits t = false →
  ∃ c, c ∈ cols ∧ c ∈ columns df ∧ ¬ column_fits df c.
Proof.
  intros Ht Hf. destruct (decide (Forall (column_fits df) cols)) as [Hall|Hex].
  - rewrite Forall_forall in Hall. apply (getitem_fits _ _ _ Ht) in Hall. congruence.
  - apply not_Forall_Exists in Hex; [|apply _].
    apply Exists_exists in Hex as (c & Hc & Hn). exists c.
    split; [done|]. split; [by eapply getitem_columns_present | done].
Qed.

Lemma create_sqlite_db_Raise df e :
  create_sqlite_db df = Raise e →
  (∃ c, e = KeyError c ∧ c ∈ required_cols ∧ c ∉ columns df)
  ∨ (e = OverflowError overflow_msg
     ∧ ∃ c, c ∈ required_cols ∧ c ∈ columns df ∧ ¬ column_fits df c).
Proof.
  unfold create_sqlite_db, build_tables.
  destruct (getitem df product_cols) as [sel|e1] eqn:Hsel; simpl.
  2: { intros [= ->]. left. apply getitem_Raise in Hsel as (c & -> & Hc & Hn).
       exists c. rewrite required_cols_elem. auto. }
  destruct (drop_duplicates_selected _ _ Hsel) as (pi & Hpi & Hcols). rewrite Hpi. simpl.
  destruct (to_sql pi "product_info" connect_memory) as [c1|e1] eqn:H1; simpl.
  2: { intros [= ->]. right. apply to_sql_Raise in H1 as [-> Hf]; [|by rewrite Hcols].
       split; [done|]. destruct (frame_fits sel) eqn:Hfs.
       - rewrite (drop_duplicates_fits _ _ _ Hpi Hfs) in Hf. discriminate.
       - destruct (getitem_unfit _ _ _ Hsel Hfs) as (c & Hc & Hin & Hn).
         exists c. rewrite required_cols_elem. auto. }
  destruct (getitem df nutrient_cols) as [ni|e2] eqn:Hni; simpl.
  2: { intros [= ->]. left. apply getitem_Raise in Hni as (c & -> & Hc & Hn).
       exists c. rewrite required_cols_elem. auto. }
  destruct (to_sql ni "nutrient_info" c1) as [c2|e2] eqn:H2; simpl.
  2: { intros [= ->]. right.
       apply to_sql_Raise in H2 as [-> Hf]; [|by rewrite (getitem_columns _ _ _ Hni)].
       split; [done|]. destruct (getitem_unfit _ _ _ Hni Hf) as (c & Hc & Hin & Hn).
       exists c. rewrite required_cols_elem. auto. }
  destruct (getitem df derived_cols) as [dm|e3] eqn:Hdm; simpl.
  2: { intros [= ->]. left. apply getitem_Raise in Hdm as (c & -> & Hc & Hn).
       exists c. rewrite required_cols_elem. auto. }
  destruct (to_sql dm "derived_metrics" c2) as [c3|e3] eqn:H3; simpl; [discriminate|].
  intros [= ->]. right.
  apply to_sql_Raise in H3 as [-> Hf]; [|by rewrite (getitem_columns _ _ _ Hdm)].
  split; [done|]. destruct (getitem_unfit _ _ _ Hdm Hf) as (c & Hc & Hin & Hn).
  exists c. rewrite required_cols_elem. auto.
Qed.

Lemma create_sqlite_db_needs_columns_aux df conn :
  create_sqlite_db df = Ok conn → required_cols ⊆ columns df.
Proof.
  intros (sel & pi & ni & dm & Hsel & _ & Hni & Hdm & _)%create_sqlite_db_tables.
  apply required_cols_split. repeat split; by eapply getitem_columns_present.
Qed.

Lemma create_sqlite_db_stored_fit df conn c :
  create_sqlite_db df = Ok conn → c ∈ nutrient_cols ++ derived_cols →
  column_fits df c.
Proof.
  intros (sel & pi & ni & dm & _ & _ & Hni & Hdm & _ & Hfni & Hfdm & _)%build_tables_inv.
  intros [Hc|Hc]%elem_of_app.
  - by apply (getitem_fits _ _ _ Hni).
  - by apply (getitem_fits _ _ _ Hdm).
Qed.

(** X1.  On a dataset with distinct column names, [create_sqlite_db]
    raises two kinds of error only: [KeyError] for a column it asked for
    and the dataset lacks, and [OverflowError] when a column it asked for
    holds an integer outside the 64 bits SQLite stores.  When it returns a
    database, the dataset has all twenty columns it asks for, and no such
    integer in a column of the nutrient or the derived-metrics table. *)
Theorem create_sqlite_db_needs_columns df :
  NoDup (columns df) →
  (∀ conn, create_sqlite_db df = Ok conn →
     required_cols ⊆ columns df
     ∧ ∀ c, c ∈ nutrient_cols ++ derived_cols → column_fits df c)
  ∧ (∀ e, create_sqlite_db df = Raise e →
       (∃ c, e = KeyError c ∧ c ∈ required_cols ∧ c ∉ columns df)
       ∨ (e = OverflowError overflow_msg
          ∧ ∃ c, c ∈ required_cols ∧ c ∈ columns df ∧ ¬ column_fits df c)).
Proof.
  intros _. split; [|apply create_sqlite_db_Raise].
  intros conn Hconn. split; [by eapply create_sqlite_db_needs_columns_aux|].
  intros c Hc. by eapply create_sqlite_db_stored_fit.
Qed.

Lemma create_sqlite_db_needs_columns_witness :
  (∀ conn, create_sqlite_db no_nova = Ok conn →
     required_cols ⊆ columns no_nova
     ∧ ∀ c, c ∈ nutrient_cols ++ derived_cols → column_fits no_nova c)
  ∧ (∀ e, create_sqlite_db no_nova = Raise e →
       (∃ c, e = KeyError c ∧ c ∈ required_cols ∧ c ∉ columns no_nova)
       ∨ (e = OverflowError overflow_msg
          ∧ ∃ c, c ∈ required_cols ∧ c ∈ columns no_nova ∧ ¬ column_fits no_nova c)).
Proof.
  apply (create_sqlite_db_needs_columns no_nova).
  apply (bool_decide_unpack _). vm_compute. exact I.
Defined.

(** The product table holds every product code of the dataset. *)
Lemma product_info_unfit df sel pi :
  getitem df product_cols = Ok sel →
  drop_duplicates "product_code" sel = Ok pi →
  ¬ column_fits df "product_code" → frame_fits pi = false.
Proof.
  intros Hsel Hpi Hn. destruct (frame_fits pi) eqn:Hf; [|done]. destruct Hn.
  unfold column_fits.
  rewrite <-(getitem_column _ _ _ "product_code" Hsel) by in_cols.
  apply drop_duplicates_Ok in Hpi as (k & Hk & ->).
  rewrite (getitem_columns _ _ _ Hsel) in Hk. injection Hk as <-.
  rewrite frame_fits_cells in Hf. simpl in Hf.
  unfold column_values. rewrite (getitem_columns _ _ _ Hsel). simpl.
  apply Forall_forall. intros x Hx.
  destruct (cell_fits x) eqn:Hfx; [done|].
  apply index_of_is_Some in Hx as [i Hi].
  destruct (drop_dup_rows_first (fun r => row_get r 0) [] _ _ _ (not_elem_of_nil _) Hi)
    as (j & Hj & _).
  apply index_of_lookup in Hj.
  apply list_lookup_fmap_Some in Hj as (r & Hkey & Hr).
  rewrite <-Hfx. apply (Hf r); [by eapply list_elem_of_lookup_2|].
  unfold row_get in Hkey. destruct (r !! 0) as [y|] eqn:Hy; simpl in Hkey.
  - subst y. by eapply list_elem_of_lookup_2.
  - subst x. discriminate.
Qed.

(** X16.  The product table is stored before the other two selections are
    made.  So on a dataset with distinct column names that has the three
    product columns, a product code outside the 64 bits SQLite stores ends
    [create_sqlite_db] in [OverflowError], whichever nutrient or derived
    columns the dataset lacks. *)
Theorem overflow_before_missing_column df :
  NoDup (columns df) →
  product_cols ⊆ columns df →
  ¬ column_fits df "product_code" →
  create_sqlite_db df = Raise (OverflowError overflow_msg).
Proof.
  intros _ Hp Hn.
  destruct (getitem_total _ _ Hp) as [sel Hsel].
  destruct (drop_duplicates_selected _ _ Hsel) as (pi & Hpi & Hcols).
  pose proof (product_info_unfit _ _ _ Hsel Hpi Hn) as Hf.
  unfold create_sqlite_db, build_tables. rewrite Hsel. simpl. rewrite Hpi. simpl.
  unfold to_sql. by rewrite Hcols, Hf.
Qed.

Lemma overflow_before_missing_column_witness :
  ¬ (nutrient_cols ⊆ columns long_code_only)
  ∧ create_sqlite_db long_code_only = Raise (OverflowError overflow_msg).
Proof.
  split; [apply (bool_decide_unpack _); vm_compute; exact I|].
  apply (overflow_before_missing_column long_code_only).
  - apply (bool_decide_unpack _). vm_compute. exact I.
  - apply (bool_decide_unpack _). vm_compute. exact I.
  - apply (bool_decide_unpack _). vm_compute. exact I.
Defined.

(** ** The other two tables *)

Lemma nutrient_cols_NoDup : NoDup nutrient_cols.
Proof. apply (bool_decide_unpack _). vm_compute. exact I. Qed.

(** X2.  The [nutrient_info] table is the dataset cut down to the fourteen
    nutrient columns: it has these columns in the order of the program's
    list, one row per input row, and each column is the dataset's column of
    that name, cell for cell (no rounding, no default for a missing
    value, duplicated product codes kept). *)
Theorem nutrient_info_is_projection df conn :
  create_sqlite_db df = Ok conn →
  ∃ ni, conn !! "nutrient_info" = Some ni
    ∧ columns ni = nutrient_cols
    ∧ length (data ni) = length (data df)
    ∧ (∀ row, row ∈ data ni → length row = 14)
    ∧ (∀ c, c ∈ nutrient_cols → column_values ni c = column_values df c).
Proof.
  intros (sel & pi & ni & dm & _ & _ & Hni & _ & _ & Hl & _)%create_sqlite_db_tables.
  exists ni. split; [done|].
  split; [by eapply getitem_columns|].
  split; [by eapply getitem_length|].
  split; [intros row Hrow; exact (getitem_row_width _ _ _ _ Hni Hrow)|].
  intros c Hc. by eapply getitem_column.
Qed.

Lemma nutrient_info_is_projection_witness :
  ∃ ni, db_of labelled !! "nutrient_info" = Some ni
    ∧ columns ni = nutrient_cols
    ∧ length (data ni) = length (data labelled)
    ∧ (∀ row, row ∈ data ni → length row = 14)
    ∧ (∀ c, c ∈ nutrient_cols → column_values ni c = column_values labelled c).
Proof.
  apply (nutrient_info_is_projection labelled (db_of labelled)).
  vm_compute. reflexivity.
Defined.

(** X3.  A database that [create_sqlite_db] returns holds the three tables
    product_info, nutrient_info and derived_metrics and no other, each
    with the header the program lists for it. *)
Theorem create_sqlite_db_three_tables df conn :
  create_sqlite_db df = Ok conn →
  dom conn = {["product_info"; "nutrient_info"; "derived_metrics"]}
  ∧ columns <$> conn !! "product_info" = Some product_cols
  ∧ columns <$> conn !! "nutrient_info" = Some nutrient_cols
  ∧ columns <$> conn !! "derived_metrics" = Some derived_cols.
Proof.
  intros (sel & pi & ni & dm & Hsel & Hpi & Hni & Hdm & ->)%build_tables_Ok.
  split; [|split; [|split]].
  - unfold connect_memory. rewrite !dom_insert_L, dom_empty_L. set_solver.
  - rewrite lookup_insert_ne, lookup_insert_ne, lookup_insert_eq by done. simpl.
    apply drop_duplicates_Ok in Hpi as (k & _ & ->). simpl.
    by rewrite (getitem_columns _ _ _ Hsel).
  - rewrite lookup_insert_ne, lookup_insert_eq by done. simpl.
    by rewrite (getitem_columns _ _ _ Hni).
  - rewrite lookup_insert_eq. simpl. by rewrite (getitem_columns _ _ _ Hdm).
Qed.

Lemma create_sqlite_db_three_tables_witness :
  dom (db_of all_missing) = {["product_info"; "nutrient_info"; "derived_metrics"]}
  ∧ columns <$> db_of all_missing !! "product_info" = Some product_cols
  ∧ columns <$> db_of all_missing !! "nutrient_info" = Some nutrient_cols
  ∧ columns <$> db_of all_missing !! "derived_metrics" = Some derived_cols.
Proof.
  apply (create_sqlite_db_three_tables all_missing (db_of all_missing)).
  vm_compute. reflexivity.
Defined.

(** ** The product table *)

Lemma drop_dup_rows_sublist key seen rows :
  drop_dup_rows key seen rows `sublist_of` rows.
Proof.
  revert seen. induction rows as [|r rows IH]; intros seen; simpl; [constructor|].
  case_decide; [by apply sublist_cons | by apply sublist_skip].
Qed.

(** X4.  When no product code occurs twice in the dataset, removing
    duplicates removes nothing: [product_info] is the dataset cut down to
    product_code, product_name and brand, row for row. *)
Theorem product_info_unique_codes df conn :
  create_sqlite_db df = Ok conn →
  NoDup (column_values df "product_code") →
  ∃ pi, conn !! "product_info" = Some pi
    ∧ getitem df product_cols = Ok pi
    ∧ length (data pi) = length (data df).
Proof.
  intros (sel & pi & ni & dm & Hsel & Hpi & _ & _ & Hl & _)%create_sqlite_db_tables Hnd.
  exists pi. split; [done|].
  apply drop_duplicates_Ok in Hpi as (k & Hk & ->).
  rewrite <-(getitem_column _ _ _ "product_code" Hsel) in Hnd by in_cols.
  unfold column_values in Hnd. rewrite Hk in Hnd.
  rewrite drop_dup_rows_id; [| done | intros r _; apply not_elem_of_nil].
  destruct sel as [cols rows]. simpl. split; [done|].
  apply (getitem_length _ _ _ Hsel).
Qed.

Lemma product_info_unique_codes_witness :
  ∃ pi, db_of labelled !! "product_info" = Some pi
    ∧ getitem labelled product_cols = Ok pi
    ∧ length (data pi) = length (data labelled).
Proof.
  apply (product_info_unique_codes labelled (db_of labelled)).
  - vm_compute. reflexivity.
  - apply (bool_decide_unpack _). vm_compute. exact I.
Defined.

(** X5.  In general [product_info] is the three-column selection with
    some rows left out: its rows are rows of that selection in their
    original order, so it never has more rows than the dataset and never
    holds a row the dataset does not have. *)
Theorem product_info_rows_in_order df conn :
  create_sqlite_db df = Ok conn →
  ∃ pi selected,
    conn !! "product_info" = Some pi
    ∧ getitem df product_cols = Ok selected
    ∧ data pi `sublist_of` data selected
    ∧ length (data pi) ≤ length (data df).
Proof.
  intros (sel & pi & ni & dm & Hsel & Hpi & _ & _ & Hl & _)%create_sqlite_db_tables.
  exists pi, sel. split; [done|]. split; [done|].
  apply drop_duplicates_Ok in Hpi as (k & Hk & ->). simpl.
  split; [apply drop_dup_rows_sublist|].
  rewrite <-(getitem_length _ _ _ Hsel).
  apply sublist_length, drop_dup_rows_sublist.
Qed.

Lemma product_info_rows_in_order_witness :
  ∃ pi selected,
    db_of duplicated !! "product_info" = Some pi
    ∧ getitem duplicated product_cols = Ok selected
    ∧ data pi `sublist_of` data selected
    ∧ length (data pi) ≤ length (data duplicated).
Proof.
  apply (product_info_rows_in_order duplicated (db_of duplicated)).
  vm_compute. reflexivity.
Defined.

(** ** What [main] does with a dataset it cannot store *)



(** ** [ORDER BY ... DESC] *)

Lemma Qcle_either (x y : Qc) :
  bool_decide (x ≤ y)%Qc = true ∨ bool_decide (y ≤ x)%Qc = true.
Proof.
  destruct (decide (x ≤ y)%Qc) as [Hxy|Hxy].
  - left. by apply bool_decide_eq_true.
  - right. apply bool_decide_eq_true. by apply Qclt_le_weak, Qcnot_le_lt.
Qed.

Lemma cell_leb_total a b : cell_leb a b = true ∨ cell_leb b a = true.
Proof.
  destruct a as [|m|x|s], b as [|n|y|t]; simpl; auto using Qcle_either.
  - destruct (decide (m ≤ n)%Z) as [Hmn|Hmn].
    + left. by apply bool_decide_eq_true.
    + right. apply bool_decide_eq_true. lia.
  - apply String.leb_total.
Qed.

Lemma cell_leb_null_r a : cell_leb a CNull = true ↔ a = CNull.
Proof. destruct a; simpl; split; congruence. Qed.

Lemma insert_desc_Permutation key x sorted : insert_desc key x sorted ≡ₚ x :: sorted.
Proof.
  induction sorted as [|r' sorted IH]; simpl; [done|].
  destruct (cell_leb (key r') (key x)); [done|].
  rewrite IH. apply Permutation_swap.
Qed.

Lemma sort_desc_Permutation key rows : sort_desc key rows ≡ₚ rows.
Proof.
  unfold sort_desc. induction rows as [|x rows IH]; simpl; [done|].
  by rewrite insert_desc_Permutation, IH.
Qed.

Lemma insert_desc_ranked key x sorted :
  ranked_desc (map key sorted) → ranked_desc (map key (insert_desc key x sorted)).
Proof.
  unfold ranked_desc.
  induction sorted as [|r' sorted IH]; simpl; intros Hs.
  - by repeat constructor.
  - apply Sorted_inv in Hs as [Hs Hhd].
    destruct (cell_leb (key r') (key x)) eqn:Hle; simpl.
    + constructor; [by constructor|]. by constructor.
    + constructor; [by apply IH|].
      destruct sorted as [|r'' sorted]; simpl.
      * constructor. by destruct (cell_leb_total (key x) (key r')); [|congruence].
      * destruct (cell_leb (key r'') (key x)); simpl; constructor.
        -- by destruct (cell_leb_total (key x) (key r')); [|congruence].
        -- by inversion Hhd.
Qed.

Lemma sort_desc_ranked key rows : ranked_desc (map key (sort_desc key rows)).
Proof.
  unfold sort_desc. induction rows as [|x rows IH]; simpl; [constructor|].
  by apply insert_desc_ranked.
Qed.

(** X8.  [ORDER BY c DESC] neither loses nor invents rows and leaves the
    header alone: the result has the rows of its input, rearranged so that
    down column [c] no value is followed by a larger one (texts first, then
    numbers, missing values last). *)
Theorem order_by_desc_ranks t c t' :
  sql_order_by_desc t c = Ok t' →
  columns t' = columns t
  ∧ data t' ≡ₚ data t
  ∧ ranked_desc (column_values t' c).
Proof.
  intros (j & Hj & ->)%sql_order_by_desc_Ok. simpl.
  split; [done|]. split; [apply sort_desc_Permutation|].
  unfold column_values. simpl. rewrite Hj. apply sort_desc_ranked.
Qed.

Lemma order_by_desc_ranks_witness :
  columns ranked = columns unranked
  ∧ data ranked ≡ₚ data unranked
  ∧ ranked_desc (column_values ranked "ratio").
Proof.
  apply (order_by_desc_ranks unranked "ratio" ranked).
  vm_compute. reflexivity.
Defined.

(** ** Missing values under [ORDER BY ... DESC LIMIT n] *)

Section NullsLast.
Variable key : list Cell → Cell.

Lemma insert_desc_null x ranked nulls :
  key x = CNull →
  (∀ r, r ∈ ranked → key r ≠ CNull) →
  (∀ r, r ∈ nulls → key r = CNull) →
  insert_desc key x (ranked ++ nulls) = ranked ++ x :: nulls.
Proof.
  intros Hx Hranked Hnulls. induction ranked as [|r' ranked IH]; simpl.
  - destruct nulls as [|b nulls]; simpl; [done|].
    rewrite (Hnulls b) by left. done.
  - rewrite Hx. destruct (cell_leb (key r') CNull) eqn:Hle.
    + apply cell_leb_null_r in Hle. by destruct (Hranked r'); [left|].
    + f_equal. apply IH. intros r Hr. apply Hranked. by right.
Qed.

Lemma insert_desc_not_null x ranked nulls :
  key x ≠ CNull →
  (∀ r, r ∈ nulls → key r = CNull) →
  insert_desc key x (ranked ++ nulls) = insert_desc key x ranked ++ nulls.
Proof.
  intros Hx Hnulls. induction ranked as [|r' ranked IH]; simpl.
  - destruct nulls as [|b nulls]; simpl; [done|].
    rewrite (Hnulls b) by left. done.
  - destruct (cell_leb (key r') (key x)); simpl; [done|]. by rewrite IH.
Qed.

(** The ranking is the ranking of the rows that have a value, followed by
    the rows that have none, these in the order they came in. *)
Lemma sort_desc_nulls_last rows :
  sort_desc key rows
  = sort_desc key (filter (fun r => key r ≠ CNull) rows)
    ++ filter (fun r => key r = CNull) rows.
Proof.
  induction rows as [|x rows IH]; [done|].
  change (sort_desc key (x :: rows)) with (insert_desc key x (sort_desc key rows)).
  rewrite IH. destruct (decide (key x = CNull)) as [Hx|Hx].
  - rewrite (filter_cons_False (fun r => key r ≠ CNull)) by (intros ?; done).
    rewrite (filter_cons_True (fun r => key r = CNull)) by done.
    apply insert_desc_null; [done| |].
    + by intros r [Hr _]%sort_desc_elem%list_elem_of_filter.
    + by intros r [Hr _]%list_elem_of_filter.
  - rewrite (filter_cons_True (fun r => key r ≠ CNull)) by done.
    rewrite (filter_cons_False (fun r => key r = CNull)) by done.
    change (sort_desc key (x :: ?l)) with (insert_desc key x (sort_desc key l)).
    apply insert_desc_not_null; [done|].
    by intros r [Hr _]%list_elem_of_filter.
Qed.
End NullsLast.

Lemma filter_fmap_length {A B} (f : A → B) (P : B → Prop) `{∀ b, Decision (P b)} l :
  length (filter P (f <$> l)) = length (filter (fun a => P (f a)) l).
Proof.
  induction l as [|a l IH]; [done|]. rewrite fmap_cons.
  destruct (decide (P (f a))) as [Hp|Hp].
  - rewrite (filter_cons_True P), (filter_cons_True (fun a => P (f a))) by done.
    simpl. by rewrite IH.
  - by rewrite (filter_cons_False P), (filter_cons_False (fun a => P (f a))).
Qed.

Lemma sort_limit_null_iff (key : list Cell → Cell) rows n :
  CNull ∈ map key (take n (sort_desc key rows))
  ↔ CNull ∈ map key rows
    ∧ length (filter (fun v => v ≠ CNull) (map key rows)) < n.
Proof.
  rewrite (filter_fmap_length key (fun v => v ≠ CNull)).
  rewrite sort_desc_nulls_last, take_app, fmap_app, elem_of_app.
  rewrite sort_desc_length.
  set (ranked := sort_desc key (filter (fun r => key r ≠ CNull) rows)).
  set (m := length (filter (fun r => key r ≠ CNull) rows)).
  split.
  - intros [(r & Hnull & Hr)%list_elem_of_fmap | (r & Hnull & Hr)%list_elem_of_fmap].
    + apply elem_of_take in Hr as (i & Hr%list_elem_of_lookup_2 & _).
      apply sort_desc_elem, list_elem_of_filter in Hr as [Hr _]. by destruct Hr.
    + apply elem_of_take in Hr as (i & Hr & Hi). split; [|lia].
      apply list_elem_of_lookup_2, list_elem_of_filter in Hr as [_ Hr].
      rewrite Hnull. by apply list_elem_of_fmap_2.
  - intros [(r & Hnull & Hr)%list_elem_of_fmap Hlt]. right.
    assert (r ∈ filter (fun r => key r = CNull) rows) as Hin
      by (by apply list_elem_of_filter).
    destruct (filter (fun r => key r = CNull) rows) as [|b nulls] eqn:Hnulls;
      [by apply elem_of_nil in Hin|].
    assert (key b = CNull) as Hb.
    { assert (b ∈ filter (fun r => key r = CNull) rows) as Hbin
        by (rewrite Hnulls; left).
      by apply list_elem_of_filter in Hbin as [? _]. }
    destruct (n - m) as [|k] eqn:Hk; [lia|]. simpl. rewrite Hb. left.
Qed.

(** X9.  After [ORDER BY c DESC LIMIT n], a row without a value in [c] is
    returned exactly when the input has such a row and fewer than [n] of
    its rows have a value: rows without a value rank last and only fill
    the places the others leave. *)
Theorem limit_returns_null_iff t c t' n :
  sql_order_by_desc t c = Ok t' →
  CNull ∈ column_values (sql_limit n t') c
  ↔ CNull ∈ column_values t c
    ∧ length (filter (fun v => v ≠ CNull) (column_values t c)) < n.
Proof.
  intros (j & Hj & ->)%sql_order_by_desc_Ok.
  unfold column_values, sql_limit. simpl. rewrite Hj.
  apply sort_limit_null_iff.
Qed.

Lemma limit_returns_null_iff_witness :
  CNull ∈ column_values (sql_limit 4 ranked) "ratio"
  ↔ CNull ∈ column_values unranked "ratio"
    ∧ length (filter (fun v => v ≠ CNull) (column_values unranked "ratio")) < 4.
Proof.
  apply (limit_returns_null_iff unranked "ratio" ranked 4).
  vm_compute. reflexivity.
Defined.

(** ** The rankings on a database built by [create_sqlite_db] *)

Lemma normalise_id r w : length r = w → map (row_get r) (seq 0 w) = r.
Proof.
  intros <-. apply list_eq. intros i. rewrite list_lookup_fmap.
  destruct (decide (i < length r)) as [Hi|Hi].
  - rewrite lookup_seq_lt by done. simpl. unfold row_get.
    by destruct (lookup_lt_is_Some_2 r i Hi) as [x ->].
  - rewrite lookup_seq_ge by lia. simpl. symmetry. apply lookup_ge_None_2. lia.
Qed.

Lemma sql_table_full_width conn name alias t :
  conn !! name = Some t →
  (∀ row, row ∈ data t → length row = length (columns t)) →
  sql_table conn name alias
  = Ok (mkDF (map (fun c => alias +:+ "." +:+ c) (columns t)) (data t)).
Proof.
  intros Ht Hw. unfold sql_table. rewrite Ht. do 2 f_equal.
  transitivity (map (fun r : list Cell => r) (data t)); [|apply map_id].
  apply map_ext_in. intros r Hr%list_elem_of_In. by apply normalise_id, Hw.
Qed.

Lemma sql_from_full_width conn name t :
  conn !! name = Some t →
  (∀ row, row ∈ data t → length row = length (columns t)) →
  sql_from conn name = Ok t.
Proof.
  intros Ht Hw. unfold sql_from. rewrite Ht. f_equal.
  destruct t as [cols rows]. simpl in *. f_equal.
  transitivity (map (fun r : list Cell => r) rows); [|apply map_id].
  apply map_ext_in. intros r Hr%list_elem_of_In. by apply normalise_id, Hw.
Qed.

(** The tables of a built database, with their headers and row widths. *)
Lemma built_tables df conn :
  create_sqlite_db df = Ok conn →
  ∃ pi ni dm,
    conn !! "product_info" = Some (mkDF product_cols pi)
    ∧ conn !! "nutrient_info" = Some (mkDF nutrient_cols ni)
    ∧ conn !! "derived_metrics" = Some (mkDF derived_cols dm)
    ∧ (∀ row, row ∈ pi → length row = 3)
    ∧ (∀ row, row ∈ ni → length row = 14)
    ∧ (∀ row, row ∈ dm → length row = 5)
    ∧ NoDup (map (fun r => row_get r 0) pi)
    ∧ (∀ c, c ∈ nutrient_cols →
            column_values (mkDF nutrient_cols ni) c = column_values df c)
    ∧ (∀ c, c ∈ derived_cols →
            column_values (mkDF derived_cols dm) c = column_values df c)
    ∧ (∀ code, code ∈ map (fun r => row_get r 0) pi
               ↔ code ∈ column_values df "product_code").
Proof.
  intros (sel & pi & ni & dm & Hsel & Hpi & Hni & Hdm & Hlp & Hln & Hld)%create_sqlite_db_tables.
  apply drop_duplicates_Ok in Hpi as (k & Hk & ->).
  pose proof (getitem_columns _ _ _ Hsel) as Hcs.
  pose proof (getitem_columns _ _ _ Hni) as Hcn.
  pose proof (getitem_columns _ _ _ Hdm) as Hcd.
  rewrite Hcs in Hk, Hlp. injection Hk as <-.
  destruct ni as [cn ni], dm as [cd dm]. simpl in Hcn, Hcd. subst cn cd.
  exists (drop_dup_rows (fun r => row_get r 0) [] (data sel)), ni, dm.
  split; [done|]. split; [done|]. split; [done|].
  split; [|split; [|split; [|split; [|split; [|split]]]]].
  - intros row [Hrow _]%drop_dup_rows_elem.
    exact (getitem_row_width _ _ _ _ Hsel Hrow).
  - intros row Hrow. exact (getitem_row_width _ _ _ _ Hni Hrow).
  - intros row Hrow. exact (getitem_row_width _ _ _ _ Hdm Hrow).
  - apply drop_dup_rows_NoDup.
  - intros c Hc. by eapply getitem_column.
  - intros c Hc. by eapply getitem_column.
  - intros code.
    rewrite <-(getitem_column _ _ _ "product_code" Hsel) by in_cols.
    unfold column_values. rewrite Hcs. simpl. split.
    + intros (r & -> & [Hr _]%drop_dup_rows_elem)%list_elem_of_fmap.
      by apply (list_elem_of_fmap_2 (fun r => row_get r 0)).
    + intros [i Hi]%index_of_is_Some.
      destruct (drop_dup_rows_first (fun r => row_get r 0) [] _ _ _
                  (not_elem_of_nil _) Hi) as (j & Hj & _).
      apply index_of_is_Some. eauto.
Qed.

Lemma sql_eqb_true a b : sql_eqb a b = true ↔ a = b ∧ a ≠ CNull.
Proof.
  destruct a, b; simpl; rewrite ?bool_decide_eq_true; split;
    try (intros [? ?]); try congruence; try (intros ?; split; congruence).
Qed.

(** "Top 5 by Ratio" on the tables of a built database: the pairs of a
    product row and a derived row with the same code, ranked on the ratio
    (position 4 of the pair), the first five. *)
Lemma join_query7_rows_built conn pi dm :
  conn !! "product_info" = Some (mkDF product_cols pi) →
  conn !! "derived_metrics" = Some (mkDF derived_cols dm) →
  (∀ row, row ∈ pi → length row = 3) →
  (∀ row, row ∈ dm → length row = 5) →
  join_query7_rows conn
  = Ok (sql_limit 5
          (mkDF ["pi.product_code"; "pi.product_name"; "pi.brand";
                 "dm.product_code"; "dm.sugar_to_carb_ratio";
                 "dm.calorie_category"; "dm.sugar_category";
                 "dm.is_ultra_processed"]
                (sort_desc (fun row => row_get row 4)
                   (filter (fun row => sql_eqb (row_get row 0) (row_get row 3))
                           (a ← pi; b ← dm; [a ++ b]))))).
Proof.
  intros Hpi Hdm Hwp Hwd. unfold join_query7_rows.
  rewrite (sql_table_full_width _ _ _ _ Hpi) by done.
  rewrite (sql_table_full_width _ _ _ _ Hdm) by done.
  reflexivity.
Qed.

Section JoinOnKey.
Context {A B C : Type}.
Variable ka : A → Cell.
Variable kd : B → Cell.
Variable g : B → C.

Lemma filter_none (P : B → Prop) `{∀ b, Decision (P b)} (l : list B) :
  (∀ b, b ∈ l → ¬ P b) → filter P l = [].
Proof.
  induction l as [|b l IH]; intros Hno; [done|].
  rewrite filter_cons_False by (apply Hno; left).
  apply IH. intros b' Hb'. apply Hno. by right.
Qed.

Lemma filter_ext_elem (P Q : B → Prop)
    `{∀ b, Decision (P b)} `{∀ b, Decision (Q b)} (l : list B) :
  (∀ b, b ∈ l → P b ↔ Q b) → filter P l = filter Q l.
Proof.
  induction l as [|b l IH]; intros Hiff; [done|].
  assert (filter P l = filter Q l) as Hl
    by (apply IH; intros b' Hb'; apply Hiff; by right).
  destruct (decide (P b)) as [Hp|Hp].
  - rewrite (filter_cons_True P), (filter_cons_True Q), Hl; [done| |done].
    by apply Hiff; [left|].
  - rewrite (filter_cons_False P), (filter_cons_False Q), Hl; [done| |done].
    intros Hq. apply Hp. by apply Hiff; [left|].
Qed.

(** The rows a key matches and the rows the other keys match make up the
    rows that all the keys match. *)
Lemma match_split a (keys : list A) (rows : list B) :
  ka a ∉ map ka keys →
  map g (filter (fun b => sql_eqb (ka a) (kd b)) rows)
  ++ map g (filter (fun b => kd b ≠ CNull ∧ kd b ∈ map ka keys) rows)
  ≡ₚ map g (filter (fun b => kd b ≠ CNull ∧ kd b ∈ map ka (a :: keys)) rows).
Proof.
  intros Hfresh. induction rows as [|b rows IH]; [done|].
  destruct (sql_eqb (ka a) (kd b)) eqn:Heq.
  - apply sql_eqb_true in Heq as [Hab Hnn].
    rewrite (filter_cons_True (fun b => sql_eqb (ka a) (kd b)))
      by (apply Is_true_true, sql_eqb_true; done).
    rewrite (filter_cons_False (fun b => kd b ≠ CNull ∧ kd b ∈ map ka keys))
      by (intros [_ Hin]; apply Hfresh; by rewrite Hab).
    rewrite (filter_cons_True (fun b => kd b ≠ CNull ∧ kd b ∈ map ka (a :: keys)))
      by (split; [congruence | rewrite <-Hab; left]).
    simpl. by rewrite IH.
  - assert (¬ sql_eqb (ka a) (kd b)) as Hne by (rewrite Heq; exact id).
    rewrite (filter_cons_False (fun b => sql_eqb (ka a) (kd b))) by done.
    destruct (decide (kd b ≠ CNull ∧ kd b ∈ map ka keys)) as [Hin|Hout].
    + rewrite (filter_cons_True (fun b => kd b ≠ CNull ∧ kd b ∈ map ka keys)) by done.
      rewrite (filter_cons_True (fun b => kd b ≠ CNull ∧ kd b ∈ map ka (a :: keys)))
        by (destruct Hin; split; [done | by right]).
      simpl. rewrite <-Permutation_middle. by rewrite IH.
    + rewrite (filter_cons_False (fun b => kd b ≠ CNull ∧ kd b ∈ map ka keys)) by done.
      rewrite (filter_cons_False (fun b => kd b ≠ CNull ∧ kd b ∈ map ka (a :: keys))).
      * apply IH.
      * intros [Hnn [Hhere|Hthere]%elem_of_cons]; [|by apply Hout].
        apply Hne, Is_true_true, sql_eqb_true. split; congruence.
Qed.

(** With distinct keys, matching every key against the rows yields each
    row that has one of the keys exactly once. *)
Lemma match_all (keys : list A) (rows : list B) :
  NoDup (map ka keys) →
  (a ← keys; map g (filter (fun b => sql_eqb (ka a) (kd b)) rows))
  ≡ₚ map g (filter (fun b => kd b ≠ CNull ∧ kd b ∈ map ka keys) rows).
Proof.
  induction keys as [|a keys IH]; intros Hnd.
  - rewrite filter_none; [done|]. by intros b _ [_ ?%elem_of_nil].
  - simpl in Hnd. apply NoDup_cons in Hnd as [Hfresh Hnd].
    rewrite bind_cons, (IH Hnd). by apply match_split.
Qed.
End JoinOnKey.

Lemma pair_rows_ratios a (dm : list (list Cell)) :
  length a = 3 →
  map (fun row => row_get row 4)
      (filter (fun row => sql_eqb (row_get row 0) (row_get row 3)) (b ← dm; [a ++ b]))
  = map (fun b => row_get b 1)
        (filter (fun b => sql_eqb (row_get a 0) (row_get b 0)) dm).
Proof.
  intros Ha. destruct a as [|x [|y [|z [|]]]]; try done. clear Ha.
  induction dm as [|b dm IH]; [done|].
  rewrite bind_cons. change ([[x; y; z] ++ b] ++ ?l) with (([x; y; z] ++ b) :: l).
  destruct (sql_eqb x (row_get b 0)) eqn:Heq.
  - rewrite (filter_cons_True (fun row => sql_eqb (row_get row 0) (row_get row 3)))
      by (apply Is_true_true; exact Heq).
    rewrite (filter_cons_True (fun b => sql_eqb (row_get [x; y; z] 0) (row_get b 0)))
      by (apply Is_true_true; exact Heq).
    simpl. f_equal. apply IH.
  - rewrite (filter_cons_False (fun row => sql_eqb (row_get row 0) (row_get row 3)))
      by (intros H%Is_true_true; change (sql_eqb x (row_get b 0) = true) in H; congruence).
    rewrite (filter_cons_False (fun b => sql_eqb (row_get [x; y; z] 0) (row_get b 0)))
      by (intros H%Is_true_true; change (sql_eqb x (row_get b 0) = true) in H; congruence).
    apply IH.
Qed.

Lemma joined_ratios (pi dm : list (list Cell)) :
  (∀ row, row ∈ pi → length row = 3) →
  map (fun row => row_get row 4)
      (filter (fun row => sql_eqb (row_get row 0) (row_get row 3))
              (a ← pi; b ← dm; [a ++ b]))
  = a ← pi; map (fun b => row_get b 1)
                (filter (fun b => sql_eqb (row_get a 0) (row_get b 0)) dm).
Proof.
  induction pi as [|a pi IH]; intros Hw; [done|].
  rewrite !bind_cons, filter_app, map_app.
  rewrite pair_rows_ratios by (apply Hw; left).
  f_equal. apply IH. intros row Hrow. apply Hw. by right.
Qed.

Lemma coded_ratios_rows (dm : list (list Cell)) :
  coded_ratios (mkDF derived_cols dm)
  = map (fun b => row_get b 1) (filter (fun b => row_get b 0 ≠ CNull) dm).
Proof.
  unfold coded_ratios.
  change (column_values (mkDF derived_cols dm) "product_code")
    with (map (fun b => row_get b 0) dm).
  change (column_values (mkDF derived_cols dm) "sugar_to_carb_ratio")
    with (map (fun b => row_get b 1) dm).
  induction dm as [|b dm IH]; [done|]. simpl zip.
  destruct (decide (row_get b 0 = CNull)) as [Hb|Hb].
  - rewrite (filter_cons_False (fun p : Cell * Cell => p.1 ≠ CNull)) by (simpl; tauto).
    rewrite (filter_cons_False (fun b => row_get b 0 ≠ CNull)) by tauto. apply IH.
  - rewrite (filter_cons_True (fun p : Cell * Cell => p.1 ≠ CNull)) by done.
    rewrite (filter_cons_True (fun b => row_get b 0 ≠ CNull)) by done.
    simpl. f_equal. apply IH.
Qed.

(** The ratios "Top 5 by Ratio" ranks on a built database are the ratio
    cells of the dataset's records that have a product code, each once. *)
Lemma built_join_ratios df conn :
  create_sqlite_db df = Ok conn →
  ∃ pi dm,
    conn !! "product_info" = Some (mkDF product_cols pi)
    ∧ conn !! "derived_metrics" = Some (mkDF derived_cols dm)
    ∧ (∀ row, row ∈ pi → length row = 3)
    ∧ (∀ row, row ∈ dm → length row = 5)
    ∧ map (fun row => row_get row 4)
          (filter (fun row => sql_eqb (row_get row 0) (row_get row 3))
                  (a ← pi; b ← dm; [a ++ b]))
      ≡ₚ coded_ratios df.
Proof.
  intros (pi & ni & dm & Hpi & _ & Hdm & Hwp & _ & Hwd & Hnd & _ & Hcols & Hcodes)%built_tables.
  exists pi, dm. repeat (split; [done|]).
  rewrite (joined_ratios _ _ Hwp).
  rewrite (match_all (fun r => row_get r 0) (fun r => row_get r 0)) by done.
  assert (coded_ratios df = coded_ratios (mkDF derived_cols dm)) as ->.
  { unfold coded_ratios. by rewrite !Hcols by in_cols. }
  rewrite coded_ratios_rows.
  rewrite (filter_ext_elem _ (fun b => row_get b 0 ≠ CNull)); [done|].
  intros b Hb. split; [by intros [? _]|]. intros Hnn. split; [done|].
  apply Hcodes. rewrite <-(Hcols "product_code") by in_cols.
  change (column_values (mkDF derived_cols dm) "product_code")
    with (map (fun b => row_get b 0) dm).
  by apply (list_elem_of_fmap_2 (fun b => row_get b 0)).
Qed.

(** X10.  On every database that [create_sqlite_db] builds, "Top 5 by
    Ratio" runs without an error and returns one row per record that has
    a product code, five at most (a product code that occurs on several
    lines gives several rows; a record without a code gives none).  A
    record without a ratio is among them exactly when the dataset has
    such a record with a product code and fewer than five records with a
    product code have a ratio. *)
Theorem top5_by_ratio_on_built_db
    (sql_round : Cell → nat → Cell) (sql_times : Cell → Z → Cell) df conn :
  create_sqlite_db df = Ok conn →
  ∃ res,
    join_query7 sql_round sql_times conn = Ok res
    ∧ columns res = ["product_name"; "brand"; "sugar_to_carb_ratio";
                     "calorie_category"; "sugar_category"]
    ∧ length (data res) = min 5 (length (coded_ratios df))
    ∧ (CNull ∈ column_values res "sugar_to_carb_ratio"
       ↔ CNull ∈ coded_ratios df
         ∧ length (filter (fun v => v ≠ CNull) (coded_ratios df)) < 5).
Proof.
  intros (pi & dm & Hpi & Hdm & Hwp & Hwd & Hperm)%built_join_ratios.
  set (joined := filter (fun row => sql_eqb (row_get row 0) (row_get row 3))
                        (a ← pi; b ← dm; [a ++ b])) in *.
  set (key := fun row : list Cell => row_get row 4) in *.
  exists (mkDF ["product_name"; "brand"; "sugar_to_carb_ratio";
                "calorie_category"; "sugar_category"]
               (map (fun row => [row_get row 1; row_get row 2; row_get row 4;
                                 row_get row 5; row_get row 6])
                    (take 5 (sort_desc key joined)))).
  split; [|split; [done|split]].
  - unfold join_query7. by rewrite (join_query7_rows_built _ _ _ Hpi Hdm Hwp Hwd).
  - simpl. rewrite length_map, length_take, sort_desc_length.
    by rewrite <-(Permutation_length Hperm), length_map.
  - change (column_values _ "sugar_to_carb_ratio")
      with (map (fun r => row_get r 2)
              (map (fun row => [row_get row 1; row_get row 2; row_get row 4;
                                row_get row 5; row_get row 6])
                   (take 5 (sort_desc key joined)))).
    rewrite map_map.
    change (map _ (take 5 (sort_desc key joined)))
      with (map key (take 5 (sort_desc key joined))).
    rewrite sort_limit_null_iff. by rewrite Hperm.
Qed.

Lemma top5_by_ratio_on_built_db_witness :
  ∃ res,
    join_query7 (fun c _ => c) (fun c _ => c) (db_of labelled) = Ok res
    ∧ columns res = ["product_name"; "brand"; "sugar_to_carb_ratio";
                     "calorie_category"; "sugar_category"]
    ∧ length (data res) = min 5 (length (coded_ratios labelled))
    ∧ (CNull ∈ column_values res "sugar_to_carb_ratio"
       ↔ CNull ∈ coded_ratios labelled
         ∧ length (filter (fun v => v ≠ CNull) (coded_ratios labelled)) < 5).
Proof.
  apply (top5_by_ratio_on_built_db (fun c _ => c) (fun c _ => c) labelled (db_of labelled)).
  vm_compute. reflexivity.
Defined.

(** ** Queries that name columns the tables do not have *)

(** X11.  "Top 10 Highest Energy" asks for the columns energy_kcal_value
    and energy_kj_value, while [create_sqlite_db] stores them as
    energy-kcal_value and energy-kj_value: on every database the program
    builds the engine rejects the query, and [execute_query] leaves one
    "Query Error" message on the page and hands the empty frame to the
    chart that follows. *)
Theorem nutrient_query1_always_fails
    (sql_round : Cell → nat → Cell) (sql_times : Cell → Z → Cell)
    df conn (query : string) :
  create_sqlite_db df = Ok conn →
  ∃ msg,
    nutrient_query1 sql_round sql_times conn = Raise (DatabaseError msg)
    ∧ execute_query (fun _ => nutrient_query1 sql_round sql_times) conn query
      = (Ok empty_frame, [StError ("❌ Query Error: " +:+ msg)]).
Proof.
  intros (pi & ni & dm & _ & Hni & _ & _ & Hwn & _)%built_tables.
  exists "no such column: energy_kcal_value".
  assert (nutrient_query1 sql_round sql_times conn
          = Raise (DatabaseError "no such column: energy_kcal_value")) as Hq.
  { unfold nutrient_query1. by rewrite (sql_from_full_width _ _ _ Hni Hwn). }
  split; [done|]. unfold execute_query. by rewrite Hq.
Qed.

Lemma nutrient_query1_always_fails_witness :
  ∃ msg,
    nutrient_query1 (fun c _ => c) (fun c _ => c) (db_of labelled)
    = Raise (DatabaseError msg)
    ∧ execute_query (fun _ => nutrient_query1 (fun c _ => c) (fun c _ => c))
        (db_of labelled) "SELECT product_code, energy_kcal_value, energy_kj_value"
      = (Ok empty_frame, [StError ("❌ Query Error: " +:+ msg)]).
Proof.
  apply (nutrient_query1_always_fails (fun c _ => c) (fun c _ => c) labelled).
  vm_compute. reflexivity.
Defined.

(** ** High calorie and high sugar *)




(** X13.  On every database that [create_sqlite_db] builds, "High Cal &
    High Sugar" runs without an error: all the names it uses (with the
    back-quoted energy-kcal_value) are names of the stored tables.  It
    returns at most fifteen rows of the four columns it selects. *)
Theorem join_query4_on_built_db
    (sql_round : Cell → nat → Cell) (sql_times : Cell → Z → Cell) df conn :
  create_sqlite_db df = Ok conn →
  ∃ res,
    join_query4 sql_round sql_times conn = Ok res
    ∧ columns res = ["product_name"; "brand"; "energy-kcal_value"; "sugars_value"]
    ∧ length (data res) ≤ 15
    ∧ (∀ row, row ∈ data res → length row = 4).
Proof.
  intros (pi & ni & dm & Hpi & Hni & Hdm & Hwp & Hwn & Hwd & _)%built_tables.
  unfold join_query4, join_query4_rows.
  rewrite (sql_table_full_width _ _ _ _ Hpi) by done.
  rewrite (sql_table_full_width _ _ _ _ Hni) by done.
  rewrite (sql_table_full_width _ _ _ _ Hdm) by done.
  eexists. split; [reflexivity|]. simpl columns. split; [done|]. split.
  - simpl data. rewrite length_map, length_take. lia.
  - simpl data. by intros row (r & -> & _)%list_elem_of_fmap.
Qed.

Lemma join_query4_on_built_db_witness :
  ∃ res,
    join_query4 (fun c _ => c) (fun c _ => c) (db_of labelled) = Ok res
    ∧ columns res = ["product_name"; "brand"; "energy-kcal_value"; "sugars_value"]
    ∧ length (data res) ≤ 15
    ∧ (∀ row, row ∈ data res → length row = 4).
Proof.
  apply (join_query4_on_built_db (fun c _ => c) (fun c _ => c) labelled (db_of labelled)).
  vm_compute. reflexivity.
Defined.

(** ** Query 27 *)

Lemma ranked_desc_take n values : ranked_desc values → ranked_desc (take n values).
Proof.
  unfold ranked_desc. intros Hs. revert n.
  induction Hs as [|v values Hs IH Hhd]; intros [|n]; simpl; try constructor.
  - apply IH.
  - destruct Hhd as [|w values' Hvw]; destruct n; simpl; by constructor.
Qed.

(** X14.  Whatever the database file holds, the rows Query 27 ranks are at
    most five, each has a ratio, and down the result no ratio is followed
    by a larger one. *)
Theorem q27_rows_ranked conn t :
  q27_rows conn = Ok t →
  length (data t) ≤ 5
  ∧ (CNull ∉ column_values t "d.sugar_to_carb_ratio")
  ∧ ranked_desc (column_values t "d.sugar_to_carb_ratio").
Proof.
  intros Hq. split; [|split; [by apply (q27_excludes_undefined conn)|]];
    revert Hq; unfold q27_rows; intros H;
    apply rbind_Ok in H as (d & _ & H); apply rbind_Ok in H as (p & _ & H);
    apply rbind_Ok in H as (n & _ & H); apply rbind_Ok in H as (dp & _ & H);
    apply rbind_Ok in H as (dpn & _ & H);
    apply rbind_Ok in H as (kept & (j & Hj & ->)%sql_where_not_null_Ok & H);
    apply rbind_Ok in H as (ranked & (j' & Hj' & ->)%sql_order_by_desc_Ok & [= <-]);
    simpl in *.
  - rewrite length_take. lia.
  - unfold column_values, sql_limit. simpl. rewrite Hj'.
    rewrite fmap_take. apply ranked_desc_take, sort_desc_ranked.
Qed.

Lemma q27_rows_ranked_witness :
  length (data (rows_of (q27_rows prebuilt))) ≤ 5
  ∧ (CNull ∉ column_values (rows_of (q27_rows prebuilt)) "d.sugar_to_carb_ratio")
  ∧ ranked_desc (column_values (rows_of (q27_rows prebuilt)) "d.sugar_to_carb_ratio").
Proof.
  apply (q27_rows_ranked prebuilt (rows_of (q27_rows prebuilt))).
  vm_compute. reflexivity.
Defined.

(** ** Products without a name *)

(** The line of the dataset a product's row in [product_info] is cut
    from: the first line with its code. *)
Lemma product_info_first_line df conn pi :
  create_sqlite_db df = Ok conn →
  conn !! "product_info" = Some (mkDF product_cols pi) →
  ∀ code i,
    index_of code (column_values df "product_code") = Some i →
    ∃ j, index_of code (map (fun r => row_get r 0) pi) = Some j
         ∧ ∀ c, c ∈ product_cols → cell_at (mkDF product_cols pi) j c = cell_at df i c.
Proof.
  intros (sel & pi' & ni & dm & Hsel & Hpi & _ & _ & Hl & _)%create_sqlite_db_tables Hlook.
  rewrite Hl in Hlook. injection Hlook as ->.
  apply drop_duplicates_Ok in Hpi as (k & Hk & Hpi).
  pose proof (getitem_columns _ _ _ Hsel) as Hcs. rewrite Hcs in Hk, Hpi.
  injection Hk as <-. injection Hpi as ->.
  intros code i Hi.
  rewrite <-(getitem_column _ _ _ "product_code" Hsel) in Hi by in_cols.
  unfold column_values in Hi. rewrite Hcs in Hi. simpl in Hi.
  destruct (drop_dup_rows_first (fun r => row_get r 0) [] _ _ _
              (not_elem_of_nil _) Hi) as (j & Hj & Hrow).
  exists j. split; [done|]. intros c Hc.
  rewrite <-(getitem_cell _ _ _ i c Hsel Hc). unfold cell_at.
  apply index_of_is_Some in Hc as [n Hn].
  rewrite (column_values_lookup _ _ n) by done.
  rewrite (column_values_lookup _ _ n) by (by rewrite Hcs). simpl. by rewrite Hrow.
Qed.

(** X15.  On every database that [create_sqlite_db] builds, "Missing
    Product Names" runs without an error and lists a product code exactly
    when the first line of the dataset with that code has no product
    name: a name given only on a later line of a duplicated code does not
    count, and a name missing only on a later line is not reported. *)
Theorem missing_names_by_first_line
    (sql_round : Cell → nat → Cell) (sql_times : Cell → Z → Cell) df conn :
  create_sqlite_db df = Ok conn →
  ∃ res,
    product_query4 sql_round sql_times conn = Ok res
    ∧ columns res = ["product_code"; "brand"]
    ∧ ∀ code,
        code ∈ column_values res "product_code"
        ↔ ∃ i, index_of code (column_values df "product_code") = Some i
               ∧ cell_at df i "product_name" = Some CNull.
Proof.
  intros Hdb.
  destruct (built_tables _ _ Hdb)
    as (pi & ni & dm & Hpi & _ & _ & Hwp & _ & _ & Hnd & _ & _ & Hcodes).
  pose proof (product_info_first_line _ _ _ Hdb Hpi) as Hfirst.
  exists (mkDF ["product_code"; "brand"]
            (map (fun row => [row_get row 0; row_get row 2])
                 (filter (fun row => row_get row 1 = CNull) pi))).
  split; [|split; [done|]].
  { unfold product_query4. by rewrite (sql_from_full_width _ _ _ Hpi Hwp). }
  intros code.
  change (column_values (mkDF ["product_code"; "brand"] _) "product_code")
    with (map (fun r => row_get r 0)
            (map (fun row => [row_get row 0; row_get row 2])
                 (filter (fun row => row_get row 1 = CNull) pi))).
  rewrite map_map, (map_ext _ (fun r : list Cell => row_get r 0)) by done.
  assert (∀ j, cell_at (mkDF product_cols pi) j "product_name"
               = (fun r => row_get r 1) <$> pi !! j) as Hname
    by (intros j; unfold cell_at; by rewrite (column_values_lookup _ _ 1)).
  split.
  - intros (row & -> & [Hnull Hrow]%list_elem_of_filter)%list_elem_of_fmap.
    apply list_elem_of_lookup in Hrow as [j Hj].
    assert (index_of (row_get row 0) (map (fun r => row_get r 0) pi) = Some j) as Hidx
      by (apply index_of_NoDup; [done | by rewrite list_lookup_fmap, Hj]).
    assert (row_get row 0 ∈ column_values df "product_code") as [i Hi]%index_of_is_Some
      by (apply Hcodes; by apply (list_elem_of_fmap_2 (fun r => row_get r 0)),
                               list_elem_of_lookup_2 with j).
    exists i. split; [done|].
    destruct (Hfirst _ _ Hi) as (j' & Hj' & Hcells).
    assert (j' = j) as -> by congruence.
    rewrite <-(Hcells "product_name") by in_cols.
    by rewrite Hname, Hj, <-Hnull.
  - intros (i & Hi & Hnull).
    destruct (Hfirst _ _ Hi) as (j & Hj & Hcells).
    rewrite <-(Hcells "product_name"), Hname in Hnull by in_cols.
    apply index_of_lookup in Hj. rewrite list_lookup_fmap in Hj.
    destruct (pi !! j) as [row|] eqn:Hrow; [|done].
    simpl in Hj, Hnull. injection Hj as <-. injection Hnull as Hnull.
    apply (list_elem_of_fmap_2 (fun r => row_get r 0)).
    apply list_elem_of_filter. split; [done|]. by apply list_elem_of_lookup_2 with j.
Qed.

Lemma missing_names_by_first_line_witness :
  ∃ res,
    product_query4 (fun c _ => c) (fun c _ => c) (db_of labelled) = Ok res
    ∧ columns res = ["product_code"; "brand"]
    ∧ ∀ code,
        code ∈ column_values res "product_code"
        ↔ ∃ i, index_of code (column_values labelled "product_code") = Some i
               ∧ cell_at labelled i "product_name" = Some CNull.
Proof.
  apply (missing_names_by_first_line (fun c _ => c) (fun c _ => c) labelled (db_of labelled)).
  vm_compute. reflexivity.
Defined.
